(** * Risk scoring and strategy selection of the KASU retention system

    A shallow embedding of [src/ml_model.py]: [predict_dropout_risk],
    [_map_course_to_number] and [get_intervention_strategy], together with
    the fragment of the Python runtime those three functions exercise
    (dictionary access, arithmetic on loosely typed values, [min], [max],
    [round], exceptions and the two nested [try] blocks).

    Modelling conventions.
    - A Python [float] is read as the rational number its decimal literal
      denotes; binary rounding error, NaN and infinities are not modelled.
      [round] goes to the nearest hundredth, a tie to the even neighbour.
    - Exceptions are the classes deriving from [Exception]; interpreter
      signals such as [KeyboardInterrupt] are not modelled.
    - [student_data] is a dictionary with string keys whose values are
      scalars ([None], [bool], [int], [float], [str]).
    - The data frame handed to the scoring capability is its single row, in
      column order.  A capability answers with a table
      ([predict_proba]) or a column ([predict]) of scalars, or raises.
    - [np.random.uniform] draws from numpy's ambient generator; the draw is
      made explicit as the argument [u], the next sample of the unit
      interval [[0, 1)].
    - [print] is recorded: a call yields what it returned or raised together
      with the exceptions it reported on standard output. *)

From Stdlib Require Import ZArith QArith Qround Lqa Lia.
From stdpp Require Import gmap strings list.

(** ** The Python fragment *)

Module Py.

(** Scalar values. *)
Inductive pyval : Type :=
| VNone
| VBool (b : bool)
| VInt (z : Z)
| VFloat (q : Q)
| VStr (s : string).

(** Exception classes ([Exception] subclasses). *)
Inductive exn : Type :=
| KeyError (key : string)
| TypeError
| AttributeError
| IndexError
| ZeroDivisionError
| OtherError (name : string).

#[export] Instance exn_eq_dec : EqDecision exn.
Proof. solve_decision. Defined.

(** The result of evaluating an expression: a value or a raised exception. *)
Inductive outcome (A : Type) : Type :=
| Ret (a : A)
| Raise (e : exn).
Arguments Ret {A} a.
Arguments Raise {A} e.

#[export] Instance outcome_ret : MRet outcome := @Ret.
#[export] Instance outcome_bind : MBind outcome :=
  fun A B (k : A -> outcome B) (m : outcome A) =>
    match m with
    | Ret a => k a
    | Raise e => Raise e
    end.
#[export] Instance outcome_fmap : FMap outcome :=
  fun A B (f : A -> B) (m : outcome A) =>
    match m with
    | Ret a => Ret (f a)
    | Raise e => Raise e
    end.

Definition Z_of_bool (b : bool) : Z := if b then 1%Z else 0%Z.

(** The number a value denotes, when it is numeric ([bool] is a subclass
    of [int]). *)
Definition num_of (v : pyval) : option Q :=
  match v with
  | VBool b => Some (inject_Z (Z_of_bool b))
  | VInt z => Some (inject_Z z)
  | VFloat q => Some q
  | VNone | VStr _ => None
  end.

(** Ordering comparisons against a number: [TypeError] for [None] and
    [str] operands. *)
Definition as_real (v : pyval) : outcome Q :=
  match num_of v with
  | Some q => Ret q
  | None => Raise TypeError
  end.

Definition Qlt_bool (a b : Q) : bool := negb (Qle_bool b a).

(** [v >= c], [v > c] and [v < c] for a numeric literal [c]. *)
Definition py_ge (v : pyval) (c : Q) : outcome bool :=
  q ← as_real v; Ret (Qle_bool c q).
Definition py_gt (v : pyval) (c : Q) : outcome bool :=
  q ← as_real v; Ret (Qlt_bool c q).
Definition py_lt (v : pyval) (c : Q) : outcome bool :=
  q ← as_real v; Ret (Qlt_bool q c).

(** [v == s] for a string literal [s]: only an equal string is equal. *)
Definition py_eq_str (v : pyval) (s : string) : bool :=
  match v with
  | VStr t => bool_decide (t = s)
  | _ => false
  end.

Fixpoint str_repeat (n : nat) (s : string) : string :=
  match n with
  | O => EmptyString
  | S k => String.append s (str_repeat k s)
  end.

(** [v * n] for an integer literal [n]: arithmetic on numbers, repetition
    on strings. *)
Definition py_mul (v : pyval) (n : Z) : outcome pyval :=
  match v with
  | VBool b => Ret (VInt (Z_of_bool b * n))
  | VInt z => Ret (VInt (z * n))
  | VFloat q => Ret (VFloat (Qred (q * inject_Z n)))
  | VStr s => Ret (VStr (str_repeat (Z.to_nat n) s))
  | VNone => Raise TypeError
  end.

(** [v / n] for an integer literal [n]: true division, always a float. *)
Definition py_truediv (v : pyval) (n : Z) : outcome pyval :=
  match num_of v with
  | Some q =>
      if Z.eqb n 0 then Raise ZeroDivisionError
      else Ret (VFloat (Qred (q / inject_Z n)))
  | None => Raise TypeError
  end.

(** Rounding to the nearest integer, ties to the even neighbour. *)
Definition round_half_even (q : Q) : Z :=
  let f := Qfloor q in
  match Qcompare (q - inject_Z f) (1 # 2) with
  | Lt => f
  | Gt => (f + 1)%Z
  | Eq => if Z.even f then f else (f + 1)%Z
  end.

(** The float [round(q, 2)]. *)
Definition round2 (q : Q) : Q :=
  Qred (round_half_even (q * inject_Z 100) # 100).

(** [round(v, 2)]: a float stays a float, an [int] or [bool] is returned
    as the [int] it is, anything else has no [__round__]. *)
Definition py_round2 (v : pyval) : outcome pyval :=
  match v with
  | VFloat q => Ret (VFloat (round2 q))
  | VInt z => Ret (VInt z)
  | VBool b => Ret (VInt (Z_of_bool b))
  | VNone | VStr _ => Raise TypeError
  end.

(** [min(1, v)]: the builtin keeps its first argument unless [v < 1]. *)
Definition py_min_1 (v : pyval) : outcome pyval :=
  c ← py_lt v 1; Ret (if c : bool then v else VInt 1).

(** [max(0, v)]: the builtin keeps its first argument unless [v > 0]. *)
Definition py_max_0 (v : pyval) : outcome pyval :=
  c ← py_gt v 0; Ret (if c : bool then v else VInt 0).

(** [d[key]] on a dictionary with string keys. *)
Definition subscript (d : gmap string pyval) (key : string) : outcome pyval :=
  match d !! key with
  | Some v => Ret v
  | None => Raise (KeyError key)
  end.

(** [d.get(key, dflt)] for a string literal [key]. *)
Definition dict_get (d : gmap string pyval) (key : string) (dflt : pyval) : pyval :=
  default dflt (d !! key).

(** [d.get(key, dflt)] for an arbitrary scalar [key]: a key that is not a
    string equals none of the string keys. *)
Definition dict_get_val (d : gmap string pyval) (key : pyval) (dflt : pyval) : pyval :=
  match key with
  | VStr s => default dflt (d !! s)
  | _ => dflt
  end.

(** [obj.attr]: a missing attribute raises [AttributeError]. *)
Definition getattr {A : Type} (attr : option A) : outcome A :=
  match attr with
  | Some a => Ret a
  | None => Raise AttributeError
  end.

(** [t[0, 1]] on a table and [c[0]] on a column. *)
Definition item_0_1 (t : list (list pyval)) : outcome pyval :=
  match t !! 0%nat with
  | Some row =>
      match row !! 1%nat with
      | Some v => Ret v
      | None => Raise IndexError
      end
  | None => Raise IndexError
  end.

Definition item_0 (c : list pyval) : outcome pyval :=
  match c !! 0%nat with
  | Some v => Ret v
  | None => Raise IndexError
  end.

(** [try: body  except AttributeError: handler]. *)
Definition try_except_AttributeError {A : Type}
    (body handler : outcome A) : outcome A :=
  match body with
  | Raise AttributeError => handler
  | other => other
  end.

(** [np.random.uniform(low, high)] at the unit sample [u]. *)
Definition uniform (low high u : Q) : Q := low + (high - low) * u.

End Py.
Import Py.

(** ** [ml_model.py] *)

(** A scoring capability: an object that may have a [predict_proba] and a
    [predict] method.  Each takes the one-row frame and answers or raises. *)
Record ScoringCapability : Type := {
  predict_proba : option (list pyval -> outcome (list (list pyval)));
  predict : option (list pyval -> outcome (list pyval))
}.

(** What a call leaves behind: the exceptions reported on standard output
    by [print(f"Prediction error: {e}")], and its result. *)
Record call : Type := {
  printed : list exn;
  returned : outcome pyval
}.

Definition course_mapping : gmap string pyval :=
  <["Agriculture" := VInt 7]>
  (<["Education" := VInt 6]>
  (<["Business" := VInt 5]>
  (<["Business Administration" := VInt 5]>
  (<["Law" := VInt 4]>
  (<["Medicine" := VInt 3]>
  (<["Engineering" := VInt 2]>
  (<["Computer Science" := VInt 1]> ∅))))))).

Definition _map_course_to_number (course_name : pyval) : pyval :=
  dict_get_val course_mapping course_name (VInt 1).

(** The [features] dictionary; its entries are evaluated in source order,
    so the first failing entry decides the exception. *)
Definition features (student_data : gmap string pyval) : outcome (gmap string pyval) :=
  let age := dict_get student_data "age" (VInt 20) in
  let course_chosen :=
    _map_course_to_number (dict_get student_data "course" (VStr "Computer Science")) in
  let residence_location :=
    if py_eq_str (dict_get student_data "residence" (VStr "Urban")) "Rural"
    then VInt 1 else VInt 0 in
  gpa ← subscript student_data "gpa";
  semester_average_grade ← py_mul gpa 25;
  parental_income_level ←
    py_truediv (dict_get student_data "parental_income" (VInt 300000)) 50000;
  attendance ← subscript student_data "attendance";
  course_failures ← subscript student_data "failures";
  financial_stress ←
    py_truediv (dict_get student_data "parental_income" (VInt 300000)) 200000;
  attendance' ← subscript student_data "attendance";
  compliant ← py_ge attendance' 75;
  let rural_disadvantage :=
    if py_eq_str (dict_get student_data "residence" (VStr "Urban")) "Rural"
    then VInt 1 else VInt 0 in
  Ret (<["Rural_Disadvantage" := rural_disadvantage]>
      (<["Attendance_Compliance" := if compliant : bool then VInt 1 else VInt 0]>
      (<["Financial_Stress" := financial_stress]>
      (<["Course_Failures" := course_failures]>
      (<["Marital_Status" := VInt 0]>
      (<["Attendance" := attendance]>
      (<["Parental_Income_Level" := parental_income_level]>
      (<["Semester_Average_Grade" := semester_average_grade]>
      (<["Residence_Location" := residence_location]>
      (<["Course_Chosen" := course_chosen]>
      (<["Gender" := VInt 1]>
      (<["Age" := age]> ∅)))))))))))).

Definition expected_features : list string :=
  ["Age"; "Gender"; "Course_Chosen"; "Residence_Location";
   "Semester_Average_Grade"; "Parental_Income_Level"; "Attendance";
   "Marital_Status"; "Course_Failures"; "Financial_Stress";
   "Attendance_Compliance"; "Rural_Disadvantage"].

(** [X = pd.DataFrame([features])[expected_features]]: the row of the
    frame, its columns selected by name in the expected order. *)
Definition X (student_data : gmap string pyval) : outcome (list pyval) :=
  f ← features student_data;
  mapM (subscript f) expected_features.

(** [ml_model.predict_proba(X)[0, 1]]. *)
Definition proba_attempt (ml_model : ScoringCapability) (x : list pyval) : outcome pyval :=
  method ← getattr (predict_proba ml_model);
  table ← method x;
  item_0_1 table.

(** [ml_model.predict(X)[0]] followed by [max(0, min(1, risk_score))]. *)
Definition value_attempt (ml_model : ScoringCapability) (x : list pyval) : outcome pyval :=
  method ← getattr (predict ml_model);
  column ← method x;
  risk_score ← item_0 column;
  lowered ← py_min_1 risk_score;
  py_max_0 lowered.

(** The inner [try] block. *)
Definition risk_score (ml_model : ScoringCapability) (x : list pyval) : outcome pyval :=
  try_except_AttributeError (proba_attempt ml_model x) (value_attempt ml_model x).

(** The body of the outer [try] block. *)
Definition prediction (student_data : gmap string pyval) (ml_model : ScoringCapability)
    : outcome pyval :=
  x ← X student_data;
  score ← risk_score ml_model x;
  py_round2 score.

(** The outer [try] block:
    [except Exception as e: print(f"Prediction error: {e}"); return 0.5]. *)
Definition outer_try (body : outcome pyval) : call :=
  match body with
  | Ret v => {| printed := []; returned := Ret v |}
  | Raise e => {| printed := [e]; returned := Ret (VFloat 0.5) |}
  end.

Definition predict_dropout_risk (u : Q) (student_data : gmap string pyval)
    (ml_model : option ScoringCapability) : call :=
  match ml_model with
  | None =>
      {| printed := []; returned := py_round2 (VFloat (uniform 0.1 0.9 u)) |}
  | Some m => outer_try (prediction student_data m)
  end.

Definition critical_guidance : string :=
  " CRITICAL: Immediate counseling, financial aid assessment, parental notification".
Definition moderate_guidance : string :=
  " MODERATE: Academic counseling, tutoring, attendance monitoring".
Definition low_guidance : string :=
  " LOW: Regular check-ins, progress monitoring".

Definition get_intervention_strategy (risk_score : pyval) : outcome string :=
  critical ← py_gt risk_score 0.7;
  if critical : bool then Ret critical_guidance
  else
    moderate ← py_gt risk_score 0.4;
    if moderate : bool then Ret moderate_guidance
    else Ret low_guidance.

(** ** Sample inputs *)

(** The record of the specification's worked example. *)
Definition example_record : gmap string pyval :=
  <["age" := VInt 20]>
  (<["course" := VStr "Computer Science"]>
  (<["parental_income" := VInt 450000]>
  (<["residence" := VStr "Urban"]>
  (<["failures" := VInt 1]>
  (<["attendance" := VFloat 85.5]>
  (<["gpa" := VFloat 3.2]> ∅)))))).

(** A record that lacks the required field [gpa]. *)
Definition record_without_gpa : gmap string pyval :=
  <["failures" := VInt 1]> (<["attendance" := VFloat 85.5]> ∅).

(** A record that lacks every field. *)
Definition empty_record : gmap string pyval := ∅.

(** A record whose fields hold values of the wrong type. *)
Definition ill_typed_record : gmap string pyval :=
  <["failures" := VNone]>
  (<["attendance" := VStr "high"]>
  (<["gpa" := VStr "3.2"]> ∅)).

(** A classifier: [predict_proba] answers one row [[1 - p, p]]. *)
Definition classifier (p : Q) : ScoringCapability :=
  {| predict_proba := Some (fun _ => Ret [[VFloat (1 - p); VFloat p]]);
     predict := Some (fun _ => Ret [VInt (if Qle_bool (1 # 2) p then 1 else 0)]) |}.

(** A regressor: no [predict_proba], [predict] answers the column [[v]]. *)
Definition regressor (v : pyval) : ScoringCapability :=
  {| predict_proba := None;
     predict := Some (fun _ => Ret [v]) |}.

(** A capability whose [predict_proba] exists but raises [AttributeError]
    from within (as an estimator unpickled under another library version
    does), while its [predict] answers [[v]]. *)
Definition broken_classifier (v : pyval) : ScoringCapability :=
  {| predict_proba := Some (fun _ => Raise AttributeError);
     predict := Some (fun _ => Ret [v]) |}.

(** A capability both of whose methods raise [e]. *)
Definition failing (e : exn) : ScoringCapability :=
  {| predict_proba := Some (fun _ => Raise e);
     predict := Some (fun _ => Raise e) |}.

(** The names listed in [course_mapping]. *)
Definition course_names : list string :=
  ["Computer Science"; "Engineering"; "Medicine"; "Law";
   "Business Administration"; "Business"; "Education"; "Agriculture"].

(** Clamping into the unit interval, as the specification words it. *)
Definition clamp01 (q : Q) : Q :=
  if Qlt_bool q 0 then 0 else if Qlt_bool 1 q then 1 else q.


(** The ways scoring can fail on the row [x]: the probability attempt
    raises anything but [AttributeError], or answers a table without an
    entry [[0, 1]] or with one that is no number; or the probability attempt
    raises [AttributeError] and the value attempt finds no [predict], or
    [predict] raises, or answers an empty column or one whose first entry
    is no number. *)
Inductive capability_fails (m : ScoringCapability) (x : list pyval) : Prop :=
| proba_raises (f : list pyval -> outcome (list (list pyval))) (e : exn) :
    predict_proba m = Some f -> f x = Raise e -> e <> AttributeError ->
    capability_fails m x
| proba_ill_shaped (f : list pyval -> outcome (list (list pyval)))
    (table : list (list pyval)) (e : exn) :
    predict_proba m = Some f -> f x = Ret table -> item_0_1 table = Raise e ->
    capability_fails m x
| proba_not_numeric (f : list pyval -> outcome (list (list pyval)))
    (table : list (list pyval)) (v : pyval) :
    predict_proba m = Some f -> f x = Ret table -> item_0_1 table = Ret v ->
    num_of v = None ->
    capability_fails m x
| value_missing :
    proba_attempt m x = Raise AttributeError -> predict m = None ->
    capability_fails m x
| value_raises (g : list pyval -> outcome (list pyval)) (e : exn) :
    proba_attempt m x = Raise AttributeError ->
    predict m = Some g -> g x = Raise e ->
    capability_fails m x
| value_ill_shaped (g : list pyval -> outcome (list pyval)) :
    proba_attempt m x = Raise AttributeError ->
    predict m = Some g -> g x = Ret [] ->
    capability_fails m x
| value_not_numeric (g : list pyval -> outcome (list pyval))
    (v : pyval) (column : list pyval) :
    proba_attempt m x = Raise AttributeError ->
    predict m = Some g -> g x = Ret (v :: column) -> num_of v = None ->
    capability_fails m x.

(** The row the worked example encodes to. *)
Definition example_row : list pyval :=
  [VInt 20; VInt 1; VInt 1; VInt 0; VFloat 80; VFloat 9; VFloat 85.5;
   VInt 0; VInt 1; VFloat (9 # 4); VInt 1; VInt 0].

(** A number with at most two decimal places. *)
Definition two_decimals (q : Q) : Prop := exists n : Z, q == n # 100.

(** The value [v] denotes a number equal to [q]. *)
Definition denotes (v : pyval) (q : Q) : Prop :=
  match num_of v with
  | Some q' => q' == q
  | None => False
  end.

(** The seven keys of the record that [predict_dropout_risk] reads. *)
Definition read_keys : list string :=
  ["age"; "course"; "residence"; "gpa"; "parental_income"; "attendance";
   "failures"].

(** What the construction of [features] takes from the record: the age with
    its default, the course code, whether the residence is 'Rural', and the
    entries of gpa, parental_income (with its default), attendance and
    failures. *)
Definition encoding_inputs (student_data : gmap string pyval)
    : pyval * pyval * bool * option pyval * pyval * option pyval * option pyval :=
  (dict_get student_data "age" (VInt 20),
   _map_course_to_number (dict_get student_data "course" (VStr "Computer Science")),
   py_eq_str (dict_get student_data "residence" (VStr "Urban")) "Rural",
   student_data !! "gpa",
   dict_get student_data "parental_income" (VInt 300000),
   student_data !! "attendance",
   student_data !! "failures").

(** ** [app.py] *)

Module App.

(** Rows of the tables, with the columns the handlers below read or write;
    a date is a point on the clock. *)
Module User.
Record t : Type := { id : Z; role : option string }.
End User.

Module Student.
Record t : Type := {
  id : Z;
  name : string;
  student_id : string;
  user_id : option Z
}.
End Student.

Module Prediction.
Record t : Type := {
  student_id : Z;
  risk_score : Q;
  prediction_date : Z
}.
End Prediction.

(** [query.filter(...).count()]. *)
Definition count (keep : Prediction.t -> bool) (rows : list Prediction.t) : nat :=
  length (List.filter keep rows).

(** The [risk_distribution] dictionary of [analytics] and
    [debug_predictions]; [between] includes both ends. *)
Record distribution : Type := { low : nat; medium : nat; high : nat }.

Definition risk_distribution (predictions : list Prediction.t) : distribution :=
  {| low := count (fun p => Qlt_bool (Prediction.risk_score p) 0.4) predictions;
     medium :=
       count (fun p => Qle_bool 0.4 (Prediction.risk_score p)
                       && Qle_bool (Prediction.risk_score p) 0.7) predictions;
     high := count (fun p => Qlt_bool 0.7 (Prediction.risk_score p)) predictions |}.

(** The guidance [get_intervention_strategy] gives for a stored score; the
    function is handed to every template by [inject_template_helpers]. *)
Definition guidance (p : Prediction.t) : outcome string :=
  get_intervention_strategy (VFloat (Prediction.risk_score p)).

(** Whether the guidance shown for a row is [text], and whether the score
    of a row is exactly 0.4. *)
Definition shows (text : string) (p : Prediction.t) : bool :=
  match guidance p with
  | Ret shown => String.eqb shown text
  | Raise _ => false
  end.

Definition at_lower_threshold (p : Prediction.t) : bool :=
  Qeq_bool (Prediction.risk_score p) 0.4.

(** [cleanup_old_database]. [os_remove path] tells which exception removing
    [path] raises, if any; the lines printed are recorded. *)
Definition db_paths : list string :=
  ["instance/retention.db"; "retention.db"; "app.db"; "instance/app.db"].

Inductive cleanup_line : Type :=
| Deleted (path : string)
| CouldNotDelete (path : string)
| ErrorDeleting (path : string) (e : exn).

Definition is_PermissionError (e : exn) : bool :=
  match e with
  | OtherError name => bool_decide (name = "PermissionError")
  | _ => false
  end.

Definition cleanup_step (os_remove : string -> option exn)
    (state : list cleanup_line * gset string) (path : string)
    : list cleanup_line * gset string :=
  let (out, files) := state in
  if bool_decide (path ∈ files) then
    match os_remove path with
    | None => (out ++ [Deleted path], files ∖ {[path]})
    | Some e =>
        if is_PermissionError e then (out ++ [CouldNotDelete path], files)
        else (out ++ [ErrorDeleting path e], files)
    end
  else (out, files).

Definition cleanup_paths (os_remove : string -> option exn) (paths : list string)
    (state : list cleanup_line * gset string) : list cleanup_line * gset string :=
  foldl (cleanup_step os_remove) state paths.

Definition cleanup_old_database (os_remove : string -> option exn)
    (files : gset string) : list cleanup_line * gset string :=
  cleanup_paths os_remove db_paths ([], files).

(** The record [assess] builds from the submitted form. [float] and [int]
    are the conversions of form text, which answer or raise; a missing
    form field raises a [KeyError]. *)
Definition form_item (form : gmap string string) (key : string) : outcome string :=
  match form !! key with
  | Some text => Ret text
  | None => Raise (KeyError key)
  end.

Definition student_data_of_form (float : string -> outcome Q)
    (int : string -> outcome Z) (form : gmap string string)
    : outcome (gmap string pyval) :=
  name ← form_item form "name";
  student_id ← form_item form "student_id";
  course ← form_item form "course";
  gpa_text ← form_item form "gpa";
  gpa ← float gpa_text;
  attendance_text ← form_item form "attendance";
  attendance ← float attendance_text;
  failures_text ← form_item form "failures";
  failures ← int failures_text;
  let residence := default "Urban" (form !! "residence") in
  parental_income ←
    match form !! "parental_income" with
    | Some text => float text
    | None => Ret (inject_Z 300000)
    end;
  age ←
    match form !! "age" with
    | Some text => int text
    | None => Ret 20%Z
    end;
  Ret (<["age" := VInt age]>
      (<["parental_income" := VFloat parental_income]>
      (<["residence" := VStr residence]>
      (<["failures" := VInt failures]>
      (<["attendance" := VFloat attendance]>
      (<["gpa" := VFloat gpa]>
      (<["course" := VStr course]>
      (<["student_id" := VStr student_id]>
      (<["name" := VStr name]> ∅))))))))).

(** The loop of [lecturer_dashboard]. [first_desc] is the database's
    [order_by(prediction_date.desc()).first()]; which row it picks among
    equal dates is its own affair. *)
Definition of_student (student : Student.t) (p : Prediction.t) : bool :=
  Z.eqb (Prediction.student_id p) (Student.id student).

(** One turn of the loop: the student is appended when the latest
    prediction exists and scores above 0.5. *)
Definition high_risk_turn
    (first_desc : list Prediction.t -> option Prediction.t)
    (predictions : list Prediction.t)
    (high_risk : list (Student.t * Q)) (student : Student.t)
    : list (Student.t * Q) :=
  match first_desc (List.filter (of_student student) predictions) with
  | Some latest_prediction =>
      if Qlt_bool 0.5 (Prediction.risk_score latest_prediction)
      then high_risk ++ [(student, Prediction.risk_score latest_prediction)]
      else high_risk
  | None => high_risk
  end.

Definition high_risk_students
    (first_desc : list Prediction.t -> option Prediction.t)
    (department_students : list Student.t) (predictions : list Prediction.t)
    : list (Student.t * Q) :=
  foldl (high_risk_turn first_desc predictions) [] department_students.

(** What [first_desc] has to do: answer a row of the latest date, and
    nothing only when there is no row. *)
Definition orders_by_date_desc
    (first_desc : list Prediction.t -> option Prediction.t) : Prop :=
  forall rows : list Prediction.t,
    match first_desc rows with
    | Some p =>
        In p rows /\
        forall p', In p' rows ->
                   (Prediction.prediction_date p' <= Prediction.prediction_date p)%Z
    | None => rows = []
    end.

(** One such choice: the earliest row among those of the latest date. *)
Definition later_of (best : option Prediction.t) (p : Prediction.t)
    : option Prediction.t :=
  match best with
  | Some b =>
      if Z.ltb (Prediction.prediction_date b) (Prediction.prediction_date p)
      then Some p else Some b
  | None => Some p
  end.

Definition first_by_date_desc (rows : list Prediction.t) : option Prediction.t :=
  foldl later_of None rows.

(** The loop of [generate_test_data]: each student's predictions are
    deleted and one prediction with a fresh demo score is added. [sample i]
    and [clock i] are the unit sample and the time of the [i]-th turn. *)
Fixpoint regenerate (sample : nat -> Q) (clock : nat -> Z) (turn : nat)
    (students : list Student.t) (predictions : list Prediction.t)
    : list Prediction.t :=
  match students with
  | [] => predictions
  | student :: rest =>
      let kept := List.filter (fun p => negb (of_student student p)) predictions in
      let prediction :=
        {| Prediction.student_id := Student.id student;
           Prediction.risk_score := round2 (uniform 0.1 0.9 (sample turn));
           Prediction.prediction_date := clock turn |} in
      regenerate sample clock (S turn) rest (kept ++ [prediction])
  end.

(** Responses of the handlers to a GET request; flashed messages are left
    out, and a rendered page stands for its template. *)
Inductive response : Type :=
| Render (template : string)
| Redirect (endpoint : string).

Record site : Type := {
  students_table : list Student.t;
  predictions_table : list Prediction.t;
  current_user : option User.t
}.

Definition has_role (user : User.t) (name : string) : bool :=
  bool_decide (User.role user = Some name).

(** The redirect of [login] once the password has been accepted. *)
Definition login_redirect (user : User.t) : response :=
  if has_role user "student" then Redirect "student_dashboard"
  else if has_role user "lecturer" then Redirect "lecturer_dashboard"
  else Redirect "dashboard".

Definition dashboard (user : User.t) : response :=
  if has_role user "student" then Redirect "student_dashboard"
  else if has_role user "lecturer" then Redirect "lecturer_dashboard"
  else Render "dashboard.html".

Definition assess (user : User.t) : response :=
  if has_role user "student" then Redirect "student_dashboard"
  else Render "assess.html".

Definition students (user : User.t) : response :=
  if has_role user "student" then Redirect "student_dashboard"
  else Render "students.html".

Definition analytics (user : User.t) : response :=
  if has_role user "student" then Redirect "student_dashboard"
  else Render "analytics.html".

Definition generate_test_data (sample : nat -> Q) (clock : nat -> Z)
    (s : site) (user : User.t) : response * site :=
  if has_role user "student" then (Redirect "student_dashboard", s)
  else
    match students_table s with
    | [] => (Redirect "assess", s)
    | _ :: _ =>
        (Redirect "analytics",
         {| students_table := students_table s;
            predictions_table :=
              regenerate sample clock 0 (students_table s) (predictions_table s);
            current_user := current_user s |})
    end.

Definition lecturer_dashboard (user : User.t) : response :=
  if negb (has_role user "lecturer") then Redirect "dashboard"
  else Render "lecturer_dashboard.html".

Definition lecturer_students (user : User.t) : response :=
  if negb (has_role user "lecturer") then Redirect "students"
  else Render "lecturer_students.html".

Definition student_dashboard (s : site) (user : User.t) : response :=
  if negb (has_role user "student") then Redirect "dashboard"
  else
    match List.find
            (fun student =>
               bool_decide (Student.user_id student = Some (User.id user)))
            (students_table s) with
    | None => Redirect "logout"
    | Some _ => Render "student_dashboard.html"
    end.

(** [@login_required]: an anonymous visitor is sent to the login view. *)
Definition login_required (s : site) (view : User.t -> response * site)
    : response * site :=
  match current_user s with
  | Some user => view user
  | None => (Redirect "login", s)
  end.

Definition logged_out (s : site) : site :=
  {| students_table := students_table s;
     predictions_table := predictions_table s;
     current_user := None |}.

(** The routes, by endpoint name, for a GET request. *)
Definition view (sample : nat -> Q) (clock : nat -> Z) (s : site)
    (endpoint : string) : option (response * site) :=
  if bool_decide (endpoint = "home") then Some (Render "index.html", s)
  else if bool_decide (endpoint = "login") then Some (Render "login.html", s)
  else if bool_decide (endpoint = "logout") then
    Some (login_required s (fun _ => (Redirect "home", logged_out s)))
  else if bool_decide (endpoint = "dashboard") then
    Some (login_required s (fun user => (dashboard user, s)))
  else if bool_decide (endpoint = "assess") then
    Some (login_required s (fun user => (assess user, s)))
  else if bool_decide (endpoint = "students") then
    Some (login_required s (fun user => (students user, s)))
  else if bool_decide (endpoint = "analytics") then
    Some (login_required s (fun user => (analytics user, s)))
  else if bool_decide (endpoint = "generate_test_data") then
    Some (login_required s (generate_test_data sample clock s))
  else if bool_decide (endpoint = "lecturer_dashboard") then
    Some (login_required s (fun user => (lecturer_dashboard user, s)))
  else if bool_decide (endpoint = "lecturer_students") then
    Some (login_required s (fun user => (lecturer_students user, s)))
  else if bool_decide (endpoint = "student_dashboard") then
    Some (login_required s (fun user => (student_dashboard s user, s)))
  else None.

Definition endpoints : list string :=
  ["home"; "login"; "logout"; "dashboard"; "assess"; "students"; "analytics";
   "generate_test_data"; "lecturer_dashboard"; "lecturer_students";
   "student_dashboard"].

(** A browser following redirects, at most [hops] of them. *)
Fixpoint follow (sample : nat -> Q) (clock : nat -> Z) (hops : nat) (s : site)
    (endpoint : string) : option (response * site) :=
  match view sample clock s endpoint with
  | Some (Redirect target, s') =>
      match hops with
      | O => Some (Redirect target, s')
      | S fewer => follow sample clock fewer s' target
      end
  | other => other
  end.

(** The templates meant for staff. *)
Definition staff_templates : list string :=
  ["dashboard.html"; "assess.html"; "students.html"; "analytics.html";
   "lecturer_dashboard.html"; "lecturer_students.html"].

End App.

(** Sample tables and forms. *)
Definition sample_predictions : list App.Prediction.t :=
  [ {| App.Prediction.student_id := 1; App.Prediction.risk_score := 0.4;
       App.Prediction.prediction_date := 10 |};
    {| App.Prediction.student_id := 1; App.Prediction.risk_score := 0.82;
       App.Prediction.prediction_date := 20 |};
    {| App.Prediction.student_id := 2; App.Prediction.risk_score := 0.5;
       App.Prediction.prediction_date := 15 |} ].

Definition sample_students : list App.Student.t :=
  [ {| App.Student.id := 1; App.Student.name := "John Doe";
       App.Student.student_id := "KASU001"; App.Student.user_id := None |};
    {| App.Student.id := 2; App.Student.name := "Jane Smith";
       App.Student.student_id := "KASU002"; App.Student.user_id := Some 7%Z |} ].

Definition sample_form : gmap string string :=
  <["failures" := "1"]>
  (<["attendance" := "85.5"]>
  (<["gpa" := "3.2"]>
  (<["course" := "Computer Science"]>
  (<["student_id" := "KASU001"]>
  (<["name" := "John Doe"]> ∅))))).

(** ** The runtime fragment: rounding, clamping *)

Section Rounding.

Local Open Scope Q_scope.

Lemma round_half_even_near (q : Q) :
  q - (1 # 2) <= inject_Z (round_half_even q) <= q + (1 # 2).
Proof.
  unfold round_half_even.
  pose proof (Qfloor_le q) as Hlo.
  pose proof (Qlt_floor q) as Hhi.
  rewrite inject_Z_plus in Hhi. change (inject_Z 1) with 1 in Hhi.
  destruct (Qcompare_spec (q - inject_Z (Qfloor q)) (1 # 2)) as [He | Hl | Hg].
  - destruct (Z.even (Qfloor q));
      [| rewrite inject_Z_plus; change (inject_Z 1) with 1]; lra.
  - lra.
  - rewrite inject_Z_plus. change (inject_Z 1) with 1. lra.
Qed.

(** Rounding keeps a number between the integers that enclose it. *)
Lemma round_half_even_between (lo hi : Z) (q : Q) :
  inject_Z lo <= q <= inject_Z hi ->
  (lo <= round_half_even q <= hi)%Z.
Proof.
  intros [Hlo Hhi].
  destruct (round_half_even_near q) as [H1 H2].
  split.
  - assert (inject_Z (lo - 1) < inject_Z (round_half_even q)) as H.
    { unfold Z.sub. rewrite inject_Z_plus.
      change (inject_Z (- (1))) with (-1 # 1). lra. }
    rewrite <- Zlt_Qlt in H. lia.
  - assert (inject_Z (round_half_even q) < inject_Z (hi + 1)) as H.
    { rewrite inject_Z_plus. change (inject_Z 1) with 1. lra. }
    rewrite <- Zlt_Qlt in H. lia.
Qed.

Lemma hundredths (n : Z) : n # 100 == inject_Z n * (1 # 100).
Proof. unfold Qeq. simpl. lia. Qed.

Lemma round2_hundredths (q : Q) :
  round2 q == round_half_even (q * inject_Z 100) # 100.
Proof. unfold round2. apply Qred_correct. Qed.

Lemma round2_two_decimals (q : Q) : two_decimals (round2 q).
Proof. eexists. apply round2_hundredths. Qed.

(** [round(q, 2)] stays between bounds that are themselves hundredths. *)
Lemma round2_between (lo hi : Z) (q : Q) :
  lo # 100 <= q <= hi # 100 ->
  lo # 100 <= round2 q <= hi # 100.
Proof.
  intros [Hlo Hhi].
  rewrite round2_hundredths.
  rewrite hundredths in Hlo. rewrite hundredths in Hhi.
  assert (inject_Z lo <= q * inject_Z 100 <= inject_Z hi) as Hq.
  { change (inject_Z 100) with 100. split; lra. }
  apply round_half_even_between in Hq.
  unfold Qle. simpl. lia.
Qed.

Lemma two_decimals_int (z : Z) : two_decimals (inject_Z z).
Proof. exists (z * 100)%Z. unfold Qeq. simpl. lia. Qed.

End Rounding.

Example example_X : X example_record = Ret example_row.
Proof. vm_compute. reflexivity. Qed.

(** ** Strategy selection *)

Section Strategy.

Local Open Scope Q_scope.

Lemma Qlt_bool_true (a b : Q) : Qlt_bool a b = true <-> a < b.
Proof.
  unfold Qlt_bool. rewrite negb_true_iff.
  split.
  - intros H. apply Qnot_le_lt. intros Hle.
    apply Qle_bool_iff in Hle. congruence.
  - intros H. destruct (Qle_bool b a) eqn:E; [| reflexivity].
    apply Qle_bool_iff in E. lra.
Qed.

Lemma Qlt_bool_false (a b : Q) : Qlt_bool a b = false <-> b <= a.
Proof.
  unfold Qlt_bool. rewrite negb_false_iff. apply Qle_bool_iff.
Qed.

Lemma py_gt_num (v : pyval) (q c : Q) :
  num_of v = Some q -> py_gt v c = Ret (Qlt_bool c q).
Proof. intros H. unfold py_gt, as_real. rewrite H. reflexivity. Qed.

Lemma py_lt_num (v : pyval) (q c : Q) :
  num_of v = Some q -> py_lt v c = Ret (Qlt_bool q c).
Proof. intros H. unfold py_lt, as_real. rewrite H. reflexivity. Qed.

(** C3. [get_intervention_strategy] returns on every numeric risk: the
    CRITICAL guidance above 0.70, the MODERATE guidance above 0.40 and up
    to 0.70, the LOW guidance up to 0.40; so 0.71 is CRITICAL, 0.70 and
    0.41 are MODERATE and 0.40 is LOW. *)
Theorem get_intervention_strategy_tiers (risk : pyval) (q : Q) :
  num_of risk = Some q ->
  (exists text, get_intervention_strategy risk = Ret text) /\
  (0.70 < q -> get_intervention_strategy risk = Ret critical_guidance) /\
  (0.40 < q /\ q <= 0.70 -> get_intervention_strategy risk = Ret moderate_guidance) /\
  (q <= 0.40 -> get_intervention_strategy risk = Ret low_guidance) /\
  get_intervention_strategy (VFloat 0.71) = Ret critical_guidance /\
  get_intervention_strategy (VFloat 0.70) = Ret moderate_guidance /\
  get_intervention_strategy (VFloat 0.41) = Ret moderate_guidance /\
  get_intervention_strategy (VFloat 0.40) = Ret low_guidance.
Proof.
  intros Hq.
  assert (get_intervention_strategy risk =
          if Qlt_bool 0.7 q then Ret critical_guidance
          else if Qlt_bool 0.4 q then Ret moderate_guidance
          else Ret low_guidance) as Hrun.
  { unfold get_intervention_strategy.
    rewrite (py_gt_num risk q 0.7 Hq), (py_gt_num risk q 0.4 Hq).
    simpl. destruct (Qlt_bool 0.7 q), (Qlt_bool 0.4 q); reflexivity. }
  rewrite Hrun.
  destruct (Qlt_bool 0.7 q) eqn:E7; [| destruct (Qlt_bool 0.4 q) eqn:E4].
  - apply Qlt_bool_true in E7.
    repeat split; eauto; try reflexivity; intros; lra.
  - apply Qlt_bool_false in E7. apply Qlt_bool_true in E4.
    repeat split; eauto; try reflexivity; intros; lra.
  - apply Qlt_bool_false in E7. apply Qlt_bool_false in E4.
    repeat split; eauto; try reflexivity; intros; lra.
Qed.

Lemma get_intervention_strategy_tiers_witness :
  num_of (VFloat 0.71) = Some 0.71 /\
  get_intervention_strategy (VFloat 0.71) = Ret critical_guidance.
Proof.
  split; [reflexivity |].
  destruct (get_intervention_strategy_tiers (VFloat 0.71) 0.71 eq_refl)
    as (_ & Hcritical & _).
  apply Hcritical. reflexivity.
Defined.

End Strategy.

(** ** Course codes *)

Section Courses.

Lemma course_mapping_unlisted (s : string) :
  s ∉ course_names -> course_mapping !! s = None.
Proof.
  unfold course_names, course_mapping. intros Hs.
  repeat (apply not_elem_of_cons in Hs as [? Hs]).
  repeat (rewrite lookup_insert_ne by congruence).
  apply lookup_empty.
Qed.



(** C8. The course table is matched exactly and case-sensitively:
    Computer Science 1, Engineering 2, Medicine 3, Law 4, Business
    Administration 5, Business 5, Education 6, Agriculture 7; every other
    course name, also one that differs from a listed name only in case, has
    the fallback code 1. *)
Theorem course_code_table (course_name : string) :
  (course_name ∉ course_names) ->
  _map_course_to_number (VStr course_name) = VInt 1 /\
  _map_course_to_number (VStr "Computer Science") = VInt 1 /\
  _map_course_to_number (VStr "Engineering") = VInt 2 /\
  _map_course_to_number (VStr "Medicine") = VInt 3 /\
  _map_course_to_number (VStr "Law") = VInt 4 /\
  _map_course_to_number (VStr "Business Administration") = VInt 5 /\
  _map_course_to_number (VStr "Business") = VInt 5 /\
  _map_course_to_number (VStr "Education") = VInt 6 /\
  _map_course_to_number (VStr "Agriculture") = VInt 7 /\
  _map_course_to_number (VStr "computer science") = VInt 1 /\
  _map_course_to_number (VStr "ENGINEERING") = VInt 1 /\
  _map_course_to_number (VStr "medicine") = VInt 1 /\
  _map_course_to_number (VStr "law") = VInt 1.
Proof.
  intros Hs. split; [| repeat split; reflexivity].
  unfold _map_course_to_number, dict_get_val.
  rewrite (course_mapping_unlisted _ Hs). reflexivity.
Qed.

Lemma course_code_table_witness :
  ("Mass Communication" ∉ course_names) /\
  _map_course_to_number (VStr "Mass Communication") = VInt 1.
Proof.
  assert ("Mass Communication" ∉ course_names) as Hs.
  { unfold course_names. intros Hin.
    repeat (apply elem_of_cons in Hin as [Hin | Hin]; [discriminate Hin |]).
    inversion Hin. }
  split; [exact Hs |].
  exact (proj1 (course_code_table "Mass Communication" Hs)).
Defined.

End Courses.

(** ** Demo mode *)

Section Demo.

Local Open Scope Q_scope.

Lemma uniform_range (u : Q) :
  0 <= u < 1 -> 0.1 <= uniform 0.1 0.9 u /\ uniform 0.1 0.9 u < 0.9.
Proof. unfold uniform. intros [H0 H1]. split; lra. Qed.

Lemma demo_score_range (u : Q) :
  0 <= u < 1 -> 0.1 <= round2 (uniform 0.1 0.9 u) <= 0.9.
Proof.
  intros Hu. destruct (uniform_range u Hu) as [Hlo Hhi].
  assert (10 # 100 <= round2 (uniform 0.1 0.9 u) <= 90 # 100) as H.
  { apply round2_between. split; lra. }
  destruct H. split; lra.
Qed.

(** C7. With no scoring capability the returned value lies in [0.1, 0.9]
    and has two decimal places, whatever the unit sample drawn; it is not a
    fixed value, since two different samples give two different scores. *)
Theorem demo_mode_range (u : Q) (student_data : gmap string pyval) :
  0 <= u < 1 ->
  (exists q : Q,
     predict_dropout_risk u student_data None =
       {| printed := []; returned := Ret (VFloat q) |} /\
     0.1 <= q <= 0.9 /\ two_decimals q) /\
  predict_dropout_risk 0 student_data None <>
  predict_dropout_risk (1 # 2) student_data None.
Proof.
  intros Hu. split.
  - exists (round2 (uniform 0.1 0.9 u)). split; [reflexivity |].
    split; [apply demo_score_range; exact Hu | apply round2_two_decimals].
  - vm_compute. discriminate.
Qed.

Lemma demo_mode_range_witness :
  0 <= 1 # 4 < 1 /\
  exists q : Q,
    predict_dropout_risk (1 # 4) example_record None =
      {| printed := []; returned := Ret (VFloat q) |} /\
    0.1 <= q <= 0.9 /\ two_decimals q.
Proof.
  assert (0 <= 1 # 4 < 1) as Hu by (split; [discriminate | reflexivity]).
  split; [exact Hu |].
  exact (proj1 (demo_mode_range (1 # 4) example_record Hu)).
Defined.

Example demo_mode_quarter :
  predict_dropout_risk (1 # 4) example_record None =
    {| printed := []; returned := Ret (VFloat 0.3) |}.
Proof. vm_compute. reflexivity. Qed.

(** C10. In demo mode no field of the record is read: the call returns
    the rounded sample for every record, also for one that lacks every
    required field or holds values of the wrong type, and two records give
    the same result; nothing is raised and nothing is reported. *)
Theorem demo_mode_ignores_record (u : Q) (student_data other_data : gmap string pyval) :
  predict_dropout_risk u student_data None =
    {| printed := []; returned := Ret (VFloat (round2 (uniform 0.1 0.9 u))) |} /\
  predict_dropout_risk u student_data None = predict_dropout_risk u other_data None /\
  predict_dropout_risk u empty_record None = predict_dropout_risk u example_record None /\
  predict_dropout_risk u ill_typed_record None = predict_dropout_risk u example_record None /\
  features empty_record = Raise (KeyError "gpa") /\
  features ill_typed_record = Raise TypeError.
Proof. repeat split; reflexivity. Qed.

End Demo.

(** ** Feature encoding *)

Section Encoding.

Local Open Scope Q_scope.



Lemma subscript_Some (d : gmap string pyval) (key : string) (v : pyval) :
  d !! key = Some v -> subscript d key = Ret v.
Proof. intros H. unfold subscript. rewrite H. reflexivity. Qed.

Lemma subscript_None (d : gmap string pyval) (key : string) :
  d !! key = None -> subscript d key = Raise (KeyError key).
Proof. intros H. unfold subscript. rewrite H. reflexivity. Qed.




End Encoding.

(** ** Failures of the encoding step *)

Section EncodingFailures.


Lemma subscript_ret (d : gmap string pyval) (key : string) (v : pyval) :
  subscript d key = Ret v -> d !! key = Some v.
Proof.
  unfold subscript. destruct (d !! key); [| discriminate].
  intros [= <-]. reflexivity.
Qed.










End EncodingFailures.

(** ** Scoring *)

Section Scoring.

Local Open Scope Q_scope.

Lemma round_half_even_comp (q q' : Q) :
  q == q' -> round_half_even q = round_half_even q'.
Proof.
  intros H. unfold round_half_even.
  rewrite (Qfloor_comp _ _ H).
  assert (q - inject_Z (Qfloor q') == q' - inject_Z (Qfloor q')) as H'
    by (rewrite H; reflexivity).
  rewrite (Qcompare_comp _ _ H' (1 # 2) (1 # 2) (Qeq_refl _)).
  reflexivity.
Qed.

Lemma round2_comp (q q' : Q) : q == q' -> round2 q = round2 q'.
Proof.
  intros H. unfold round2.
  rewrite (round_half_even_comp (q * inject_Z 100) (q' * inject_Z 100))
    by (rewrite H; reflexivity).
  reflexivity.
Qed.

Lemma round_half_even_int (z : Z) : round_half_even (inject_Z z) = z.
Proof.
  unfold round_half_even. rewrite Qfloor_Z.
  destruct (Qcompare_spec (inject_Z z - inject_Z z) (1 # 2)) as [H | H | H];
    [lra | reflexivity | lra].
Qed.

(** Rounding an integer to two decimals leaves it as it is. *)
Lemma round2_int (z : Z) : round2 (inject_Z z) == inject_Z z.
Proof.
  rewrite round2_hundredths.
  rewrite (round_half_even_comp _ (inject_Z (z * 100)))
    by (rewrite inject_Z_mult; reflexivity).
  rewrite round_half_even_int.
  unfold Qeq. simpl. lia.
Qed.

(** [round(v, 2)] of a number is the number rounded to two decimals. *)
Lemma py_round2_num (v : pyval) (q : Q) :
  num_of v = Some q ->
  exists (r : pyval) (q' : Q),
    py_round2 v = Ret r /\ num_of r = Some q' /\ q' == round2 q /\
    two_decimals q'.
Proof.
  destruct v as [| b | z | q0 | s]; simpl; intros H; try discriminate;
    injection H as <-.
  - exists (VInt (Z_of_bool b)), (inject_Z (Z_of_bool b)).
    split; [reflexivity |]. split; [reflexivity |].
    split; [symmetry; apply round2_int | apply two_decimals_int].
  - exists (VInt z), (inject_Z z).
    split; [reflexivity |]. split; [reflexivity |].
    split; [symmetry; apply round2_int | apply two_decimals_int].
  - exists (VFloat (round2 q0)), (round2 q0).
    split; [reflexivity |]. split; [reflexivity |].
    split; [reflexivity | apply round2_two_decimals].
Qed.

Lemma py_round2_not_num (v : pyval) :
  num_of v = None -> py_round2 v = Raise TypeError.
Proof. destruct v; simpl; congruence. Qed.

Lemma round2_unit (q : Q) : 0 <= q <= 1 -> 0 <= round2 q <= 1.
Proof.
  intros [H0 H1].
  assert (0 # 100 <= round2 q <= 100 # 100) as H.
  { apply round2_between. split; lra. }
  destruct H. split; lra.
Qed.

Lemma clamp01_unit (q : Q) : 0 <= clamp01 q <= 1.
Proof.
  unfold clamp01.
  destruct (Qlt_bool q 0) eqn:E0; [split; lra |].
  destruct (Qlt_bool 1 q) eqn:E1; [split; lra |].
  apply Qlt_bool_false in E0. apply Qlt_bool_false in E1. split; lra.
Qed.

(** [max(0, min(1, v))] on a number: 0 below the interval, 1 above it, the
    value itself strictly inside. *)
Lemma clamp_num (v : pyval) (q : Q) :
  num_of v = Some q ->
  exists (w : pyval) (q' : Q),
    (lowered ← py_min_1 v; py_max_0 lowered) = Ret w /\
    num_of w = Some q' /\ q' == clamp01 q /\
    (q <= 0 -> w = VInt 0) /\ (1 <= q -> w = VInt 1) /\
    (0 < q < 1 -> w = v).
Proof.
  intros Hv. unfold py_min_1, py_max_0, clamp01.
  rewrite (py_lt_num v q 1 Hv). cbn [mbind outcome_bind].
  destruct (Qlt_bool q 1) eqn:E1.
  - apply Qlt_bool_true in E1.
    rewrite (py_gt_num v q 0 Hv). cbn [mbind outcome_bind].
    replace (Qlt_bool 1 q) with false
      by (symmetry; apply Qlt_bool_false; lra).
    destruct (Qlt_bool 0 q) eqn:E0.
    + apply Qlt_bool_true in E0.
      replace (Qlt_bool q 0) with false
        by (symmetry; apply Qlt_bool_false; lra).
      exists v, q. repeat split; try reflexivity; try exact Hv; intros; lra.
    + apply Qlt_bool_false in E0.
      exists (VInt 0), 0. repeat split; try reflexivity; try (intros; lra).
      destruct (Qlt_bool q 0) eqn:E; [reflexivity |].
      apply Qlt_bool_false in E. lra.
  - apply Qlt_bool_false in E1.
    rewrite (py_gt_num (VInt 1) 1 0 eq_refl). cbn [mbind outcome_bind].
    exists (VInt 1), 1. repeat split; try reflexivity; try (intros; lra).
    replace (Qlt_bool q 0) with false
      by (symmetry; apply Qlt_bool_false; lra).
    destruct (Qlt_bool 1 q) eqn:E; [reflexivity |].
    apply Qlt_bool_false in E. lra.
Qed.

Lemma clamp_not_num (v : pyval) :
  num_of v = None -> (lowered ← py_min_1 v; py_max_0 lowered) = Raise TypeError.
Proof.
  intros H. unfold py_min_1, py_lt, as_real. rewrite H. reflexivity.
Qed.

(** The value attempt, for a capability whose [predict] answers a column
    that starts with [v]. *)
Lemma value_attempt_column (m : ScoringCapability) (x : list pyval)
    (g : list pyval -> outcome (list pyval)) (v : pyval) (column : list pyval) :
  predict m = Some g -> g x = Ret (v :: column) ->
  value_attempt m x = (lowered ← py_min_1 v; py_max_0 lowered).
Proof.
  intros Hg Hx. unfold value_attempt. rewrite Hg. cbn [getattr mbind outcome_bind].
  rewrite Hx. reflexivity.
Qed.

(** Whatever the value attempt returns is a number of the unit interval. *)
Lemma value_attempt_unit (m : ScoringCapability) (x : list pyval) (w : pyval) :
  value_attempt m x = Ret w ->
  exists q : Q, num_of w = Some q /\ 0 <= q <= 1.
Proof.
  unfold value_attempt.
  destruct (predict m) as [g |]; cbn [getattr mbind outcome_bind]; [| discriminate].
  destruct (g x) as [column | e]; cbn [mbind outcome_bind]; [| discriminate].
  destruct column as [| v column]; [discriminate |].
  cbn [item_0 lookup list_lookup mbind outcome_bind].
  destruct (num_of v) as [q |] eqn:Hv.
  - destruct (clamp_num v q Hv) as (w' & q' & Hrun & Hw & Hq & _).
    rewrite Hrun. intros [= <-]. exists q'. split; [exact Hw |].
    pose proof (clamp01_unit q). split; lra.
  - rewrite (clamp_not_num v Hv). discriminate.
Qed.

Lemma risk_score_proba_ret (m : ScoringCapability) (x : list pyval) (p : pyval) :
  proba_attempt m x = Ret p -> risk_score m x = Ret p.
Proof. intros H. unfold risk_score. rewrite H. reflexivity. Qed.

Lemma risk_score_proba_raise (m : ScoringCapability) (x : list pyval) (e : exn) :
  proba_attempt m x = Raise e -> e <> AttributeError -> risk_score m x = Raise e.
Proof.
  intros H He. unfold risk_score. rewrite H.
  destruct e; try reflexivity. contradiction.
Qed.

Lemma risk_score_fallback (m : ScoringCapability) (x : list pyval) :
  proba_attempt m x = Raise AttributeError -> risk_score m x = value_attempt m x.
Proof. intros H. unfold risk_score. rewrite H. reflexivity. Qed.

Lemma predict_with_row (u : Q) (student_data : gmap string pyval)
    (m : ScoringCapability) (x : list pyval) :
  X student_data = Ret x ->
  predict_dropout_risk u student_data (Some m) =
    outer_try (score ← risk_score m x; py_round2 score).
Proof.
  intros H. unfold predict_dropout_risk, prediction. rewrite H. reflexivity.
Qed.

Lemma predict_without_row (u : Q) (student_data : gmap string pyval)
    (m : ScoringCapability) (e : exn) :
  X student_data = Raise e ->
  predict_dropout_risk u student_data (Some m) =
    {| printed := [e]; returned := Ret (VFloat 0.5) |}.
Proof.
  intros H. unfold predict_dropout_risk, prediction. rewrite H. reflexivity.
Qed.

End Scoring.

(** ** The scoring claims *)

Section ScoringClaims.

Local Open Scope Q_scope.

Lemma item_0_1_raise (table : list (list pyval)) (e : exn) :
  item_0_1 table = Raise e -> e = IndexError.
Proof.
  unfold item_0_1. destruct (table !! 0%nat) as [row |]; [| congruence].
  destruct (row !! 1%nat); [discriminate | congruence].
Qed.

Lemma proba_attempt_missing (m : ScoringCapability) (x : list pyval) :
  predict_proba m = None -> proba_attempt m x = Raise AttributeError.
Proof. intros H. unfold proba_attempt. rewrite H. reflexivity. Qed.

Lemma proba_attempt_table (m : ScoringCapability) (x : list pyval)
    (f : list pyval -> outcome (list (list pyval))) (table : list (list pyval)) :
  predict_proba m = Some f -> f x = Ret table ->
  proba_attempt m x = item_0_1 table.
Proof.
  intros Hf Hx. unfold proba_attempt. rewrite Hf.
  cbn [getattr mbind outcome_bind]. rewrite Hx. reflexivity.
Qed.

Lemma proba_attempt_raise (m : ScoringCapability) (x : list pyval)
    (f : list pyval -> outcome (list (list pyval))) (e : exn) :
  predict_proba m = Some f -> f x = Raise e -> proba_attempt m x = Raise e.
Proof.
  intros Hf Hx. unfold proba_attempt. rewrite Hf.
  cbn [getattr mbind outcome_bind]. rewrite Hx. reflexivity.
Qed.

(** A failing capability makes the body of the outer [try] raise. *)
Lemma capability_fails_raise (m : ScoringCapability) (x : list pyval) :
  capability_fails m x ->
  exists e : exn, (score ← risk_score m x; py_round2 score) = Raise e.
Proof.
  intros [f e Hf Hx He | f table e Hf Hx Hi | f table v Hf Hx Hi Hv
         | Hp Hg | g e Hp Hg Hx | g Hp Hg Hx | g v column Hp Hg Hx Hv].
  - exists e.
    rewrite (risk_score_proba_raise m x e (proba_attempt_raise m x f e Hf Hx) He).
    reflexivity.
  - exists e. pose proof (item_0_1_raise _ _ Hi) as ->.
    rewrite (risk_score_proba_raise m x IndexError); [reflexivity | | discriminate].
    rewrite (proba_attempt_table m x f table Hf Hx). exact Hi.
  - exists TypeError.
    rewrite (risk_score_proba_ret m x v).
    + cbn [mbind outcome_bind]. apply py_round2_not_num, Hv.
    + rewrite (proba_attempt_table m x f table Hf Hx). exact Hi.
  - exists AttributeError.
    rewrite (risk_score_fallback m x Hp). unfold value_attempt.
    rewrite Hg. reflexivity.
  - exists e.
    rewrite (risk_score_fallback m x Hp). unfold value_attempt.
    rewrite Hg. cbn [getattr mbind outcome_bind]. rewrite Hx. reflexivity.
  - exists IndexError.
    rewrite (risk_score_fallback m x Hp). unfold value_attempt.
    rewrite Hg. cbn [getattr mbind outcome_bind]. rewrite Hx. reflexivity.
  - exists TypeError.
    rewrite (risk_score_fallback m x Hp).
    rewrite (value_attempt_column m x g v column Hg Hx).
    rewrite (clamp_not_num v Hv). reflexivity.
Qed.

(** The call returns, whatever the record and the capability. *)
Lemma predict_dropout_risk_returns (u : Q) (student_data : gmap string pyval)
    (ml_model : option ScoringCapability) :
  exists v : pyval, returned (predict_dropout_risk u student_data ml_model) = Ret v.
Proof.
  destruct ml_model as [m |]; simpl.
  - unfold outer_try. destruct (prediction student_data m); simpl; eauto.
  - eauto.
Qed.

(** C2, as the code has it. When scoring fails -- the probability attempt
    raises an exception other than [AttributeError] or answers an
    ill-shaped or non-numeric table, or it raises [AttributeError] and the
    value attempt finds no [predict], raises, or answers an ill-shaped or
    non-numeric column -- the call prints the exception and returns exactly
    0.5; and no call raises.  An [AttributeError] raised by the probability
    attempt alone is not such a failure: it diverts to the value attempt. *)
Theorem capability_failure_falls_back (u : Q) (student_data : gmap string pyval)
    (m : ScoringCapability) :
  (forall x, X student_data = Ret x -> capability_fails m x) ->
  (exists e : exn,
     predict_dropout_risk u student_data (Some m) =
       {| printed := [e]; returned := Ret (VFloat 0.5) |}) /\
  (forall other : option ScoringCapability,
     exists v : pyval,
       returned (predict_dropout_risk u student_data other) = Ret v).
Proof.
  intros Hfails. split; [| intros other; apply predict_dropout_risk_returns].
  destruct (X student_data) as [x | e] eqn:HX.
  - destruct (capability_fails_raise m x (Hfails x eq_refl)) as [e He].
    exists e. rewrite (predict_with_row u _ m x HX), He. reflexivity.
  - exists e. apply predict_without_row, HX.
Qed.

Lemma capability_failure_falls_back_witness :
  exists e : exn,
    predict_dropout_risk 0 example_record (Some (failing (OtherError "ValueError"))) =
      {| printed := [e]; returned := Ret (VFloat 0.5) |}.
Proof.
  assert (forall x, X example_record = Ret x ->
                    capability_fails (failing (OtherError "ValueError")) x) as Hfails.
  { intros x _.
    apply (proba_raises _ x (fun _ => Raise (OtherError "ValueError"))
             (OtherError "ValueError")); [reflexivity | reflexivity | discriminate]. }
  exact (proj1 (capability_failure_falls_back 0 example_record
                  (failing (OtherError "ValueError")) Hfails)).
Defined.

(** C2 as stated fails: a capability whose [predict_proba] raises
    [AttributeError] from within, and whose [predict] answers 0.3, is
    scored 0.3 and not 0.5. *)
Lemma internal_attribute_error_is_scored :
  X example_record = Ret example_row /\
  (exists f, predict_proba (broken_classifier (VFloat 0.3)) = Some f /\
             f example_row = Raise AttributeError) /\
  predict_dropout_risk 0 example_record (Some (broken_classifier (VFloat 0.3))) =
    {| printed := []; returned := Ret (VFloat 0.3) |} /\
  returned (predict_dropout_risk 0 example_record
              (Some (broken_classifier (VFloat 0.3)))) <> Ret (VFloat 0.5).
Proof.
  split; [vm_compute; reflexivity |].
  split; [eexists; split; reflexivity |].
  split; [vm_compute; reflexivity |].
  vm_compute. discriminate.
Qed.

(** C5, as the code has it. On every path the call returns a number with
    two decimal places.  It lies in [0, 1] in demo mode, on the value-shape
    path and on the failure fallback; on the probability-shape path it is
    the capability's positive-class probability rounded, which is not
    clamped, so it lies in [0, 1] whenever that probability does. *)
Theorem score_is_rounded_and_bounded (u : Q) (student_data : gmap string pyval)
    (ml_model : option ScoringCapability) :
  0 <= u < 1 ->
  exists (v : pyval) (q : Q),
    returned (predict_dropout_risk u student_data ml_model) = Ret v /\
    num_of v = Some q /\
    two_decimals q /\
    ((forall m x p q',
        ml_model = Some m -> X student_data = Ret x ->
        proba_attempt m x = Ret p -> num_of p = Some q' -> 0 <= q' <= 1) ->
     0 <= q <= 1).
Proof.
  intros Hu.
  assert (exists q : Q, num_of (VFloat 0.5) = Some q /\ two_decimals q /\ 0 <= q <= 1)
    as Hhalf.
  { exists 0.5. split; [reflexivity |]. split; [| split; lra].
    exists 50%Z. reflexivity. }
  destruct ml_model as [m |].
  2: { exists (VFloat (round2 (uniform 0.1 0.9 u))), (round2 (uniform 0.1 0.9 u)).
       split; [reflexivity |]. split; [reflexivity |].
       split; [apply round2_two_decimals |].
       intros _. pose proof (demo_score_range u Hu). split; lra. }
  destruct (X student_data) as [x | e] eqn:HX.
  2: { destruct Hhalf as (q & Hq & Hdec & Hrange).
       exists (VFloat 0.5), q. rewrite (predict_without_row u _ m e HX).
       split; [reflexivity |]. split; [exact Hq |]. split; [exact Hdec |].
       intros _. exact Hrange. }
  rewrite (predict_with_row u _ m x HX).
  assert (forall (score : pyval) (q : Q),
            num_of score = Some q ->
            exists (r : pyval) (q' : Q),
              returned (outer_try (py_round2 score)) = Ret r /\
              num_of r = Some q' /\ two_decimals q' /\
              (0 <= q <= 1 -> 0 <= q' <= 1)) as Hround.
  { intros score q Hscore.
    destruct (py_round2_num score q Hscore) as (r & q' & Hr & Hnum & Heq & Hdec).
    exists r, q'. rewrite Hr.
    split; [reflexivity |]. split; [exact Hnum |]. split; [exact Hdec |].
    intros Hq. pose proof (round2_unit q Hq). split; lra. }
  assert (forall e : exn,
            exists (r : pyval) (q' : Q),
              returned (outer_try (Raise e)) = Ret r /\
              num_of r = Some q' /\ two_decimals q' /\ 0 <= q' <= 1) as Hfall.
  { intros e. destruct Hhalf as (q & Hq & Hdec & Hrange).
    exists (VFloat 0.5), q. split; [reflexivity |]. eauto. }
  destruct (proba_attempt m x) as [p | e] eqn:Hp.
  - rewrite (risk_score_proba_ret m x p Hp). cbn [mbind outcome_bind].
    destruct (num_of p) as [q |] eqn:Hnum.
    + destruct (Hround p q Hnum) as (r & q' & Hr & Hr' & Hdec & Hrange).
      exists r, q'. split; [exact Hr |]. split; [exact Hr' |].
      split; [exact Hdec |].
      intros Hunit. apply Hrange. exact (Hunit m x p q eq_refl eq_refl Hp Hnum).
    + rewrite (py_round2_not_num p Hnum).
      destruct (Hfall TypeError) as (r & q' & Hr & Hr' & Hdec & Hrange).
      exists r, q'. eauto.
  - destruct (decide (e = AttributeError)) as [-> | Hne].
    + rewrite (risk_score_fallback m x Hp).
      destruct (value_attempt m x) as [w | e] eqn:Hw; cbn [mbind outcome_bind].
      * destruct (value_attempt_unit m x w Hw) as (q & Hq & Hunit).
        destruct (Hround w q Hq) as (r & q' & Hr & Hr' & Hdec & Hrange).
        exists r, q'. eauto.
      * destruct (Hfall e) as (r & q' & Hr & Hr' & Hdec & Hrange).
        exists r, q'. eauto.
    + rewrite (risk_score_proba_raise m x e Hp Hne). cbn [mbind outcome_bind].
      destruct (Hfall e) as (r & q' & Hr & Hr' & Hdec & Hrange).
      exists r, q'. eauto.
Qed.

End ScoringClaims.

Section ScoringShapes.

Local Open Scope Q_scope.

Lemma score_is_rounded_and_bounded_witness :
  0 <= 1 # 4 < 1 /\
  exists (v : pyval) (q : Q),
    returned (predict_dropout_risk (1 # 4) example_record
                (Some (regressor (VFloat 1.7)))) = Ret v /\
    num_of v = Some q /\ two_decimals q.
Proof.
  assert (0 <= 1 # 4 < 1) as Hu by (split; [discriminate | reflexivity]).
  split; [exact Hu |].
  destruct (score_is_rounded_and_bounded (1 # 4) example_record
              (Some (regressor (VFloat 1.7))) Hu)
    as (v & q & Hv & Hq & Hdec & _).
  exists v, q. split; [exact Hv |]. split; [exact Hq | exact Hdec].
Defined.

(** C5 as stated fails: the probability path does not clamp, so a
    capability whose [predict_proba] answers 2 in the positive column is
    scored 2. *)
Lemma unclamped_probability :
  X example_record = Ret example_row /\
  proba_attempt (classifier 2) example_row = Ret (VFloat 2) /\
  predict_dropout_risk 0 example_record (Some (classifier 2)) =
    {| printed := []; returned := Ret (VFloat 2) |} /\
  ~ (0 <= 2 <= 1).
Proof.
  split; [vm_compute; reflexivity |].
  split; [reflexivity |].
  split; [vm_compute; reflexivity |].
  intros [_ H]. apply H. reflexivity.
Qed.

(** The call on a value-shape answer: the clamped answer, rounded. *)
Lemma predict_value_shape (u : Q) (student_data : gmap string pyval)
    (m : ScoringCapability) (x : list pyval)
    (g : list pyval -> outcome (list pyval)) (v : pyval) (column : list pyval)
    (q : Q) :
  X student_data = Ret x ->
  proba_attempt m x = Raise AttributeError ->
  predict m = Some g -> g x = Ret (v :: column) -> num_of v = Some q ->
  exists (w r : pyval) (q' : Q),
    predict_dropout_risk u student_data (Some m) =
      {| printed := []; returned := Ret r |} /\
    py_round2 w = Ret r /\
    (q <= 0 -> w = VInt 0) /\ (1 <= q -> w = VInt 1) /\ (0 < q < 1 -> w = v) /\
    num_of r = Some q' /\ q' == round2 (clamp01 q).
Proof.
  intros HX Hp Hg Hx Hv.
  destruct (clamp_num v q Hv) as (w & qw & Hrun & Hw & Hqw & Hlo & Hhi & Hin).
  destruct (py_round2_num w qw Hw) as (r & q' & Hr & Hnum & Hq' & _).
  exists w, r, q'.
  split.
  { rewrite (predict_with_row u _ m x HX), (risk_score_fallback m x Hp).
    rewrite (value_attempt_column m x g v column Hg Hx), Hrun.
    cbn [mbind outcome_bind]. rewrite Hr. reflexivity. }
  split; [exact Hr |].
  split; [exact Hlo |]. split; [exact Hhi |]. split; [exact Hin |].
  split; [exact Hnum |].
  rewrite Hq'. rewrite (round2_comp qw (clamp01 q) Hqw). reflexivity.
Qed.

(** C6. For a capability without [predict_proba] whose [predict] answers
    a number outside [0, 1], the answer is clamped before it is rounded: an
    answer below 0 gives 0 and an answer above 1 gives 1 (the [int]s 0 and
    1, equal to 0.0 and 1.0); in general the result is the clamped answer
    rounded to two decimals. *)
Theorem value_shape_is_clamped (u : Q) (student_data : gmap string pyval)
    (m : ScoringCapability) (x : list pyval)
    (g : list pyval -> outcome (list pyval)) (v : pyval) (column : list pyval)
    (q : Q) :
  X student_data = Ret x ->
  predict_proba m = None ->
  predict m = Some g -> g x = Ret (v :: column) -> num_of v = Some q ->
  (q < 0 ->
   predict_dropout_risk u student_data (Some m) =
     {| printed := []; returned := Ret (VInt 0) |}) /\
  (1 < q ->
   predict_dropout_risk u student_data (Some m) =
     {| printed := []; returned := Ret (VInt 1) |}) /\
  (exists (r : pyval) (q' : Q),
     predict_dropout_risk u student_data (Some m) =
       {| printed := []; returned := Ret r |} /\
     num_of r = Some q' /\ q' == round2 (clamp01 q) /\ 0 <= q' <= 1) /\
  denotes (VInt 0) 0.0 /\ denotes (VInt 1) 1.0.
Proof.
  intros HX Hnone Hg Hx Hv.
  destruct (predict_value_shape u student_data m x g v column q HX
              (proba_attempt_missing m x Hnone) Hg Hx Hv)
    as (w & r & q' & Hrun & Hr & Hlo & Hhi & _ & Hnum & Hq').
  split.
  { intros Hq. rewrite Hrun. rewrite Hlo in Hr by lra.
    simpl in Hr. injection Hr as <-. reflexivity. }
  split.
  { intros Hq. rewrite Hrun. rewrite Hhi in Hr by lra.
    simpl in Hr. injection Hr as <-. reflexivity. }
  split.
  { exists r, q'. split; [exact Hrun |]. split; [exact Hnum |].
    split; [exact Hq' |].
    pose proof (round2_unit _ (clamp01_unit q)). split; lra. }
  split; reflexivity.
Qed.

Lemma value_shape_is_clamped_witness :
  predict_dropout_risk 0 example_record (Some (regressor (VFloat 1.7))) =
    {| printed := []; returned := Ret (VInt 1) |}.
Proof.
  assert (X example_record = Ret example_row) as HX by (vm_compute; reflexivity).
  destruct (value_shape_is_clamped 0 example_record (regressor (VFloat 1.7))
              example_row (fun _ => Ret [VFloat 1.7]) (VFloat 1.7) [] 1.7
              HX eq_refl eq_refl eq_refl eq_refl) as (_ & Habove & _).
  apply Habove. reflexivity.
Defined.

Example value_shape_below :
  predict_dropout_risk 0 example_record (Some (regressor (VFloat (-0.2)))) =
    {| printed := []; returned := Ret (VInt 0) |}.
Proof. vm_compute. reflexivity. Qed.

Example value_shape_inside :
  predict_dropout_risk 0 example_record (Some (regressor (VFloat 0.347))) =
    {| printed := []; returned := Ret (VFloat (7 # 20)) |}.
Proof. vm_compute. reflexivity. Qed.



End ScoringShapes.

(** ** What the score depends on *)

Section Dependence.

Local Open Scope Q_scope.

(** The features are a function of the seven inputs read off the record. *)
Lemma features_inputs (student_data other : gmap string pyval) :
  encoding_inputs student_data = encoding_inputs other ->
  features student_data = features other.
Proof.
  unfold encoding_inputs. intros H.
  injection H as Hage Hcourse Hrural Hgpa Hincome Hatt Hfail.
  unfold features, subscript.
  rewrite Hage, Hcourse, Hrural, Hgpa, Hincome, Hatt, Hfail.
  reflexivity.
Qed.

Lemma predict_inputs (u : Q) (student_data other : gmap string pyval)
    (ml_model : option ScoringCapability) :
  encoding_inputs student_data = encoding_inputs other ->
  predict_dropout_risk u student_data ml_model =
  predict_dropout_risk u other ml_model.
Proof.
  intros H. destruct ml_model as [m |]; [| reflexivity].
  unfold predict_dropout_risk, prediction, X.
  rewrite (features_inputs _ _ H). reflexivity.
Qed.

Lemma read_keys_inputs (student_data other : gmap string pyval) :
  (forall key, key ∈ read_keys -> student_data !! key = other !! key) ->
  encoding_inputs student_data = encoding_inputs other.
Proof.
  intros H. unfold encoding_inputs, dict_get.
  rewrite !(H "age"), !(H "course"), !(H "residence"), !(H "gpa"),
    !(H "parental_income"), !(H "attendance"), !(H "failures")
    by (unfold read_keys; set_solver).
  reflexivity.
Qed.

(** X1. Two records that agree on the seven keys the function reads get
    the same result, whatever else they hold: the name and the student id
    that [assess] puts into the record play no part. *)
Theorem score_depends_on_read_keys (u : Q) (student_data other : gmap string pyval)
    (ml_model : option ScoringCapability) :
  (forall key, key ∈ read_keys -> student_data !! key = other !! key) ->
  predict_dropout_risk u student_data ml_model =
  predict_dropout_risk u other ml_model.
Proof. intros H. apply predict_inputs, read_keys_inputs, H. Qed.

Lemma score_depends_on_read_keys_witness :
  predict_dropout_risk 0 (<["name" := VStr "John Doe"]> example_record)
    (Some (classifier 0.8)) =
  predict_dropout_risk 0 example_record (Some (classifier 0.8)).
Proof.
  apply score_depends_on_read_keys.
  intros key Hkey. apply lookup_insert_ne.
  intros <-. unfold read_keys in Hkey.
  repeat (apply elem_of_cons in Hkey as [Hkey | Hkey]; [discriminate Hkey |]).
  inversion Hkey.
Defined.

(** X2. An optional field that is absent behaves as if it held its
    default: age 20, course 'Computer Science', residence 'Urban',
    parental_income 300000. *)
Theorem absent_field_is_default (u : Q) (student_data : gmap string pyval)
    (ml_model : option ScoringCapability) (key : string) (dflt : pyval) :
  (key, dflt) ∈ [("age", VInt 20); ("course", VStr "Computer Science");
                 ("residence", VStr "Urban"); ("parental_income", VInt 300000)] ->
  student_data !! key = None ->
  predict_dropout_risk u (<[key := dflt]> student_data) ml_model =
  predict_dropout_risk u student_data ml_model.
Proof.
  intros Hin Hnone. apply predict_inputs.
  unfold encoding_inputs, dict_get.
  repeat (apply elem_of_cons in Hin as [[= -> ->] | Hin];
          [rewrite lookup_insert_eq, Hnone;
           rewrite !lookup_insert_ne by discriminate; reflexivity |]).
  inversion Hin.
Qed.

Lemma absent_field_is_default_witness :
  predict_dropout_risk 0 (<["age" := VInt 20]> record_without_gpa) None =
  predict_dropout_risk 0 record_without_gpa None /\
  predict_dropout_risk 0
    (<["parental_income" := VInt 300000]>
       (delete "parental_income" example_record))
    (Some (classifier 0.8)) =
  predict_dropout_risk 0 (delete "parental_income" example_record)
    (Some (classifier 0.8)).
Proof.
  split.
  - apply (absent_field_is_default 0 record_without_gpa None "age" (VInt 20));
      [set_solver | reflexivity].
  - apply (absent_field_is_default 0 (delete "parental_income" example_record)
             (Some (classifier 0.8)) "parental_income" (VInt 300000));
      [set_solver | reflexivity].
Defined.

(** X3. The course enters the score through its code only: two course
    values with the same code give the same result, so a course outside the
    table, or one that is no string, is scored as 'Computer Science', and
    'Business' as 'Business Administration'. *)
Theorem course_enters_through_code (u : Q) (student_data : gmap string pyval)
    (ml_model : option ScoringCapability) (course other : pyval) :
  _map_course_to_number course = _map_course_to_number other ->
  predict_dropout_risk u (<["course" := course]> student_data) ml_model =
  predict_dropout_risk u (<["course" := other]> student_data) ml_model.
Proof.
  intros H. apply predict_inputs.
  unfold encoding_inputs, dict_get.
  rewrite !lookup_insert_eq. simpl. rewrite H.
  rewrite !lookup_insert_ne by discriminate. reflexivity.
Qed.

Lemma course_enters_through_code_witness :
  predict_dropout_risk 0 (<["course" := VStr "Mass Communication"]> example_record)
    (Some (classifier 0.8)) =
  predict_dropout_risk 0 (<["course" := VStr "Computer Science"]> example_record)
    (Some (classifier 0.8)) /\
  predict_dropout_risk 0 (<["course" := VStr "Business"]> example_record)
    (Some (classifier 0.8)) =
  predict_dropout_risk 0 (<["course" := VStr "Business Administration"]> example_record)
    (Some (classifier 0.8)).
Proof.
  split; apply course_enters_through_code; reflexivity.
Defined.

(** X4. The residence enters the score only through the test for the
    exact string 'Rural': any other value, 'rural' in lower case or a
    value that is no string, is scored as 'Urban'. *)
Theorem residence_is_rural_or_not (u : Q) (student_data : gmap string pyval)
    (ml_model : option ScoringCapability) (residence : pyval) :
  residence <> VStr "Rural" ->
  predict_dropout_risk u (<["residence" := residence]> student_data) ml_model =
  predict_dropout_risk u (<["residence" := VStr "Urban"]> student_data) ml_model.
Proof.
  intros Hne. apply predict_inputs.
  unfold encoding_inputs, dict_get.
  rewrite !lookup_insert_eq. simpl.
  rewrite !lookup_insert_ne by discriminate.
  replace (py_eq_str residence "Rural") with false; [reflexivity |].
  destruct residence as [| | | | s]; try reflexivity.
  simpl. symmetry. apply bool_decide_eq_false. congruence.
Qed.

Lemma residence_is_rural_or_not_witness :
  predict_dropout_risk 0 (<["residence" := VStr "rural"]> example_record)
    (Some (classifier 0.8)) =
  predict_dropout_risk 0 (<["residence" := VStr "Urban"]> example_record)
    (Some (classifier 0.8)).
Proof.
  apply residence_is_rural_or_not. discriminate.
Defined.

End Dependence.

(** ** The row, for every record *)

Section Row.

Local Open Scope Q_scope.

Lemma course_mapping_codes :
  map_Forall (fun _ v => exists z : Z, v = VInt z /\ (1 <= z <= 7)%Z) course_mapping.
Proof.
  unfold course_mapping.
  repeat (apply map_Forall_insert_2; [eexists; split; [reflexivity | lia] |]).
  apply map_Forall_empty.
Qed.

Lemma _map_course_to_number_range (course_name : pyval) :
  exists z : Z, _map_course_to_number course_name = VInt z /\ (1 <= z <= 7)%Z.
Proof.
  unfold _map_course_to_number, dict_get_val.
  destruct course_name; try (exists 1%Z; split; [reflexivity | lia]).
  destruct (course_mapping !! s) as [v |] eqn:E; simpl.
  - exact (course_mapping_codes s v E).
  - exists 1%Z. split; [reflexivity | lia].
Qed.

Lemma bind_ret_inv {A B : Type} (m : outcome A) (k : A -> outcome B) (b : B) :
  m ≫= k = Ret b -> exists a, m = Ret a /\ k a = Ret b.
Proof. destruct m as [a | e]; simpl; [eauto | discriminate]. Qed.






(** The row that a successful construction of the features yields. *)
Lemma X_of_features (student_data : gmap string pyval)
    (v_gpa v_attendance v_failures grade level stress : pyval) (compliant : bool) :
  student_data !! "gpa" = Some v_gpa ->
  student_data !! "attendance" = Some v_attendance ->
  student_data !! "failures" = Some v_failures ->
  py_mul v_gpa 25 = Ret grade ->
  py_truediv (dict_get student_data "parental_income" (VInt 300000)) 50000 = Ret level ->
  py_truediv (dict_get student_data "parental_income" (VInt 300000)) 200000 = Ret stress ->
  py_ge v_attendance 75 = Ret compliant ->
  X student_data =
    Ret [dict_get student_data "age" (VInt 20);
         VInt 1;
         _map_course_to_number
           (dict_get student_data "course" (VStr "Computer Science"));
         VInt (Z_of_bool
                 (py_eq_str (dict_get student_data "residence" (VStr "Urban")) "Rural"));
         grade; level; v_attendance; VInt 0; v_failures; stress;
         VInt (Z_of_bool compliant);
         VInt (Z_of_bool
                 (py_eq_str (dict_get student_data "residence" (VStr "Urban")) "Rural"))].
Proof.
  intros Hg Ha Hf Egrade Elevel Estress Ege.
  unfold X, features.
  rewrite (subscript_Some _ _ _ Hg), (subscript_Some _ _ _ Ha),
    (subscript_Some _ _ _ Hf), Elevel, Estress.
  cbn [mbind outcome_bind]. rewrite Egrade, Ege.
  cbn [mbind outcome_bind].
  destruct (py_eq_str _ "Rural"), compliant; reflexivity.
Qed.

(** When the encoding returns, the pieces it was built from. *)
Lemma X_ret_inv (student_data : gmap string pyval) (x : list pyval) :
  X student_data = Ret x ->
  exists (v_gpa v_attendance v_failures grade level stress : pyval) (compliant : bool),
    student_data !! "gpa" = Some v_gpa /\
    student_data !! "attendance" = Some v_attendance /\
    student_data !! "failures" = Some v_failures /\
    py_mul v_gpa 25 = Ret grade /\
    py_truediv (dict_get student_data "parental_income" (VInt 300000)) 50000 = Ret level /\
    py_truediv (dict_get student_data "parental_income" (VInt 300000)) 200000 = Ret stress /\
    py_ge v_attendance 75 = Ret compliant.
Proof.
  unfold X. intros H.
  apply bind_ret_inv in H as (f & Hf & _).
  unfold features in Hf.
  apply bind_ret_inv in Hf as (v_gpa & Hg & Hf).
  apply bind_ret_inv in Hf as (grade & Hgrade & Hf).
  apply bind_ret_inv in Hf as (level & Hlevel & Hf).
  apply bind_ret_inv in Hf as (v_att & Ha & Hf).
  apply bind_ret_inv in Hf as (v_fail & Hfail & Hf).
  apply bind_ret_inv in Hf as (stress & Hstress & Hf).
  apply bind_ret_inv in Hf as (v_att' & Ha' & Hf).
  apply bind_ret_inv in Hf as (compliant & Hc & _).
  apply subscript_ret in Hg, Ha, Hfail, Ha'.
  assert (v_att' = v_att) as -> by congruence.
  exists v_gpa, v_att, v_fail, grade, level, stress, compliant.
  repeat split; assumption.
Qed.

(** X5. Whenever the encoding returns, valid record or not, the row has
    exactly 12 entries: Gender is 1 and Marital_Status is 0,
    Residence_Location and Rural_Disadvantage are the same 0 or 1,
    Attendance_Compliance is 0 or 1, Course_Chosen is an [int] from 1 to 7,
    and Age, Attendance and Course_Failures are the values of the record
    (Age 20 when absent), passed on as they are. *)
Theorem row_shape (student_data : gmap string pyval) (x : list pyval) :
  X student_data = Ret x ->
  exists (code : Z) (rural compliant : bool) (grade level stress : pyval),
    x = [dict_get student_data "age" (VInt 20); VInt 1; VInt code;
         VInt (Z_of_bool rural); grade; level;
         default VNone (student_data !! "attendance"); VInt 0;
         default VNone (student_data !! "failures"); stress;
         VInt (Z_of_bool compliant); VInt (Z_of_bool rural)] /\
    length x = 12%nat /\
    (1 <= code <= 7)%Z /\
    is_Some (student_data !! "attendance") /\
    is_Some (student_data !! "failures").
Proof.
  intros HX.
  destruct (X_ret_inv _ _ HX)
    as (v_gpa & v_att & v_fail & grade & level & stress & compliant
        & Hg & Ha & Hf & Egrade & Elevel & Estress & Ege).
  rewrite (X_of_features _ _ _ _ _ _ _ _ Hg Ha Hf Egrade Elevel Estress Ege) in HX.
  injection HX as <-.
  destruct (_map_course_to_number_range
              (dict_get student_data "course" (VStr "Computer Science")))
    as (code & -> & Hcode).
  exists code,
    (py_eq_str (dict_get student_data "residence" (VStr "Urban")) "Rural"),
    compliant, grade, level, stress.
  rewrite Ha, Hf. simpl. repeat split; eauto; lia.
Qed.

Lemma row_shape_witness :
  exists (code : Z) (rural compliant : bool) (grade level stress : pyval),
    example_row =
      [dict_get example_record "age" (VInt 20); VInt 1; VInt code;
       VInt (Z_of_bool rural); grade; level;
       default VNone (example_record !! "attendance"); VInt 0;
       default VNone (example_record !! "failures"); stress;
       VInt (Z_of_bool compliant); VInt (Z_of_bool rural)] /\
    length example_row = 12%nat /\
    (1 <= code <= 7)%Z /\
    is_Some (example_record !! "attendance") /\
    is_Some (example_record !! "failures").
Proof.
  apply (row_shape example_record example_row). vm_compute. reflexivity.
Defined.


Example string_gpa_is_encoded :
  X (<["gpa" := VStr "A"]> example_record) =
  Ret [VInt 20; VInt 1; VInt 1; VInt 0; VStr "AAAAAAAAAAAAAAAAAAAAAAAAA";
       VFloat 9; VFloat 85.5; VInt 0; VInt 1; VFloat (9 # 4); VInt 1; VInt 0].
Proof. vm_compute. reflexivity. Qed.

End Row.

(** ** From the score to the guidance *)

Section ScoreToGuidance.

Local Open Scope Q_scope.

Lemma get_intervention_strategy_num (risk : pyval) (q : Q) :
  num_of risk = Some q ->
  get_intervention_strategy risk =
    if Qlt_bool 0.7 q then Ret critical_guidance
    else if Qlt_bool 0.4 q then Ret moderate_guidance
    else Ret low_guidance.
Proof.
  intros Hq. unfold get_intervention_strategy.
  rewrite (py_gt_num risk q 0.7 Hq), (py_gt_num risk q 0.4 Hq).
  simpl. destruct (Qlt_bool 0.7 q), (Qlt_bool 0.4 q); reflexivity.
Qed.

(** Whatever the call returns is a number. *)
Lemma returned_is_number (u : Q) (student_data : gmap string pyval)
    (ml_model : option ScoringCapability) :
  exists (v : pyval) (q : Q),
    returned (predict_dropout_risk u student_data ml_model) = Ret v /\
    num_of v = Some q.
Proof.
  destruct ml_model as [m |]; simpl; [| eauto].
  unfold outer_try.
  destruct (prediction student_data m) as [v | e] eqn:E; simpl; [| eauto].
  unfold prediction in E.
  apply bind_ret_inv in E as (x & _ & E).
  apply bind_ret_inv in E as (score & _ & E).
  exists v. destruct score; simpl in E; try discriminate; injection E as <-; eauto.
Qed.

(** X7. The guidance can always be computed for the score of a call: for
    every record, capability and sample, [get_intervention_strategy]
    applied to what [predict_dropout_risk] returned does not raise and
    answers one of the three guidance texts. *)
Theorem guidance_of_score_exists (u : Q) (student_data : gmap string pyval)
    (ml_model : option ScoringCapability) :
  exists (v : pyval) (text : string),
    returned (predict_dropout_risk u student_data ml_model) = Ret v /\
    get_intervention_strategy v = Ret text /\
    text ∈ [critical_guidance; moderate_guidance; low_guidance].
Proof.
  destruct (returned_is_number u student_data ml_model) as (v & q & Hv & Hq).
  exists v. rewrite (get_intervention_strategy_num v q Hq).
  destruct (Qlt_bool 0.7 q); [| destruct (Qlt_bool 0.4 q)];
    eexists; (split; [exact Hv |]); (split; [reflexivity |]); set_solver.
Qed.

(** X8. A call that reports an exception -- a missing or ill-typed field,
    or a failing capability -- always leads to the MODERATE guidance, since
    its score is the fallback 0.5. *)
Theorem reported_failure_is_moderate (u : Q) (student_data : gmap string pyval)
    (ml_model : option ScoringCapability) :
  printed (predict_dropout_risk u student_data ml_model) <> [] ->
  exists v : pyval,
    returned (predict_dropout_risk u student_data ml_model) = Ret v /\
    get_intervention_strategy v = Ret moderate_guidance.
Proof.
  destruct ml_model as [m |]; simpl; [| congruence].
  unfold outer_try.
  destruct (prediction student_data m) as [v | e]; simpl; [congruence |].
  intros _. exists (VFloat 0.5). split; reflexivity.
Qed.

Lemma reported_failure_is_moderate_witness :
  exists v : pyval,
    returned (predict_dropout_risk 0 record_without_gpa (Some (classifier 0.8)))
      = Ret v /\
    get_intervention_strategy v = Ret moderate_guidance.
Proof.
  apply reported_failure_is_moderate. vm_compute. discriminate.
Defined.

(** X9. The guidance is monotone in the risk: if a risk is CRITICAL so is
    every higher one, and if a risk is LOW so is every lower one. *)
Theorem guidance_is_monotone (risk higher : pyval) (q q' : Q) :
  num_of risk = Some q -> num_of higher = Some q' -> q <= q' ->
  (get_intervention_strategy risk = Ret critical_guidance ->
   get_intervention_strategy higher = Ret critical_guidance) /\
  (get_intervention_strategy higher = Ret low_guidance ->
   get_intervention_strategy risk = Ret low_guidance).
Proof.
  intros Hq Hq' Hle.
  rewrite (get_intervention_strategy_num risk q Hq),
    (get_intervention_strategy_num higher q' Hq').
  destruct (Qlt_bool 0.7 q) eqn:E7; destruct (Qlt_bool 0.4 q) eqn:E4;
    destruct (Qlt_bool 0.7 q') eqn:E7'; destruct (Qlt_bool 0.4 q') eqn:E4';
    split; intros H; try reflexivity; try discriminate H;
    repeat match goal with
           | E : Qlt_bool _ _ = true |- _ => apply Qlt_bool_true in E
           | E : Qlt_bool _ _ = false |- _ => apply Qlt_bool_false in E
           end; lra.
Qed.

Lemma guidance_is_monotone_witness :
  get_intervention_strategy (VFloat 0.9) = Ret critical_guidance /\
  get_intervention_strategy (VFloat 0.2) = Ret low_guidance.
Proof.
  assert (0.71 <= 0.9) as H1 by discriminate.
  assert (0.2 <= 0.4) as H2 by discriminate.
  split.
  - apply (guidance_is_monotone (VFloat 0.71) (VFloat 0.9) 0.71 0.9
             eq_refl eq_refl H1). reflexivity.
  - apply (guidance_is_monotone (VFloat 0.2) (VFloat 0.4) 0.2 0.4
             eq_refl eq_refl H2). reflexivity.
Defined.

Lemma round2_near (q : Q) : q - (1 # 200) <= round2 q <= q + (1 # 200).
Proof.
  rewrite round2_hundredths, hundredths.
  destruct (round_half_even_near (q * inject_Z 100)) as [Hlo Hhi].
  change (inject_Z 100) with 100 in *. split; lra.
Qed.

(** X10. Rounding moves the score by at most 0.005: when [predict_proba]
    answers a float [q] in the positive column the call returns a float
    within 0.005 of [q] and reports nothing. *)
Theorem probability_score_is_accurate (u : Q) (student_data : gmap string pyval)
    (m : ScoringCapability) (x : list pyval)
    (f : list pyval -> outcome (list (list pyval)))
    (negative : pyval) (q : Q) (rest : list pyval) (rows : list (list pyval)) :
  X student_data = Ret x ->
  predict_proba m = Some f ->
  f x = Ret ((negative :: VFloat q :: rest) :: rows) ->
  exists r : Q,
    predict_dropout_risk u student_data (Some m) =
      {| printed := []; returned := Ret (VFloat r) |} /\
    q - (1 # 200) <= r <= q + (1 # 200).
Proof.
  intros HX Hf Hx. exists (round2 q). split; [| apply round2_near].
  rewrite (predict_with_row u _ m x HX).
  rewrite (risk_score_proba_ret m x (VFloat q)); [reflexivity |].
  rewrite (proba_attempt_table m x f _ Hf Hx). reflexivity.
Qed.

Lemma probability_score_is_accurate_witness :
  exists r : Q,
    predict_dropout_risk 0 example_record (Some (classifier 0.8)) =
      {| printed := []; returned := Ret (VFloat r) |} /\
    0.8 - (1 # 200) <= r <= 0.8 + (1 # 200).
Proof.
  assert (X example_record = Ret example_row) as HX by (vm_compute; reflexivity).
  exact (probability_score_is_accurate 0 example_record (classifier 0.8)
           example_row (fun _ => Ret [[VFloat (1 - 0.8); VFloat 0.8]])
           (VFloat (1 - 0.8)) 0.8 [] [] HX eq_refl eq_refl).
Defined.

End ScoreToGuidance.

(** ** [analytics]: the risk distribution *)

Section Analytics.

Local Open Scope Q_scope.

Lemma count_cons (keep : App.Prediction.t -> bool) (p : App.Prediction.t)
    (rows : list App.Prediction.t) :
  App.count keep (p :: rows) = (Nat.b2n (keep p) + App.count keep rows)%nat.
Proof. unfold App.count. simpl. destruct (keep p); reflexivity. Qed.

Lemma shows_num (text : string) (p : App.Prediction.t) :
  App.shows text p =
    String.eqb
      (if Qlt_bool 0.7 (App.Prediction.risk_score p) then critical_guidance
       else if Qlt_bool 0.4 (App.Prediction.risk_score p) then moderate_guidance
       else low_guidance)
      text.
Proof.
  unfold App.shows, App.guidance.
  rewrite (get_intervention_strategy_num
             (VFloat (App.Prediction.risk_score p))
             (App.Prediction.risk_score p) eq_refl).
  destruct (Qlt_bool 0.7 _); [| destruct (Qlt_bool 0.4 _)]; reflexivity.
Qed.

Lemma Qle_bool_false (a b : Q) : Qle_bool a b = false -> b < a.
Proof.
  intros H. apply Qnot_le_lt. intros Hle.
  apply Qle_bool_iff in Hle. congruence.
Qed.

(** A single row: the bucket it is counted in, against the guidance shown
    for it. *)
Lemma row_buckets (p : App.Prediction.t) :
  let q := App.Prediction.risk_score p in
  let is_low := Nat.b2n (Qlt_bool q 0.4) in
  let is_medium := Nat.b2n (Qle_bool 0.4 q && Qle_bool q 0.7) in
  let is_high := Nat.b2n (Qlt_bool 0.7 q) in
  let on_edge := Nat.b2n (App.at_lower_threshold p) in
  (is_low + is_medium + is_high = 1 /\
   is_high = Nat.b2n (App.shows critical_guidance p) /\
   is_low + on_edge = Nat.b2n (App.shows low_guidance p) /\
   is_medium = Nat.b2n (App.shows moderate_guidance p) + on_edge)%nat.
Proof.
  intros q. unfold App.at_lower_threshold. rewrite !shows_num. fold q.
  destruct (Qlt_bool q 0.4) eqn:Elow;
    destruct (Qle_bool 0.4 q) eqn:Ege;
    destruct (Qle_bool q 0.7) eqn:Ele;
    destruct (Qlt_bool 0.7 q) eqn:Ehigh;
    destruct (Qlt_bool 0.4 q) eqn:Emid;
    destruct (Qeq_bool q 0.4) eqn:Eedge;
    try (repeat split; reflexivity);
    exfalso;
    repeat match goal with
           | E : Qlt_bool _ _ = true |- _ => apply Qlt_bool_true in E
           | E : Qlt_bool _ _ = false |- _ => apply Qlt_bool_false in E
           | E : Qle_bool _ _ = true |- _ => apply Qle_bool_iff in E
           | E : Qle_bool _ _ = false |- _ => apply Qle_bool_false in E
           | E : Qeq_bool _ _ = true |- _ => apply Qeq_bool_iff in E
           | E : Qeq_bool _ _ = false |- _ => apply Qeq_bool_neq in E
           end;
    first [lra | match goal with H : ~ _ == _ |- _ => apply H; lra end].
Qed.

(** X11. The three buckets of the risk distribution split the table:
    every prediction is counted in exactly one of low, medium and high, so
    the three counts add up to the number of predictions. *)
Theorem risk_distribution_splits (predictions : list App.Prediction.t) :
  (App.low (App.risk_distribution predictions)
   + App.medium (App.risk_distribution predictions)
   + App.high (App.risk_distribution predictions))%nat
  = length predictions.
Proof.
  unfold App.risk_distribution. cbn [App.low App.medium App.high].
  induction predictions as [| p rows IH]; [reflexivity |].
  rewrite !count_cons. cbn [length].
  destruct (row_buckets p) as (Hone & _). cbv zeta in Hone. lia.
Qed.

(** X12. The buckets against the guidance shown for the same scores: the
    high bucket counts exactly the predictions shown as CRITICAL; but a
    score of exactly 0.4 is counted as medium and shown as LOW, so the LOW
    guidances number the low bucket plus the scores equal to 0.4, and the
    medium bucket numbers the MODERATE guidances plus those scores. *)
Theorem risk_distribution_against_guidance (predictions : list App.Prediction.t) :
  App.high (App.risk_distribution predictions) =
    App.count (App.shows critical_guidance) predictions /\
  (App.low (App.risk_distribution predictions)
   + App.count App.at_lower_threshold predictions)%nat =
    App.count (App.shows low_guidance) predictions /\
  App.medium (App.risk_distribution predictions) =
    (App.count (App.shows moderate_guidance) predictions
     + App.count App.at_lower_threshold predictions)%nat.
Proof.
  unfold App.risk_distribution. cbn [App.low App.medium App.high].
  induction predictions as [| p rows (IHhigh & IHlow & IHmedium)];
    [repeat split; reflexivity |].
  rewrite !count_cons.
  destruct (row_buckets p) as (_ & Hhigh & Hlow & Hmedium).
  cbv zeta in Hhigh, Hlow, Hmedium.
  repeat split; lia.
Qed.

Example sample_distribution :
  App.risk_distribution sample_predictions =
    {| App.low := 0; App.medium := 2; App.high := 1 |} /\
  App.count (App.shows low_guidance) sample_predictions = 1%nat /\
  App.count (App.shows moderate_guidance) sample_predictions = 1%nat.
Proof. vm_compute. repeat split. Qed.

End Analytics.

(** ** [cleanup_old_database] *)

Section Cleanup.

Lemma cleanup_step_files (os_remove : string -> option exn)
    (out : list App.cleanup_line) (files : gset string) (path p : string) :
  p ∈ (App.cleanup_step os_remove (out, files) path).2 <->
  p ∈ files /\ (p <> path \/ os_remove p <> None).
Proof.
  unfold App.cleanup_step.
  destruct (bool_decide (path ∈ files)) eqn:Ein.
  - apply bool_decide_eq_true in Ein.
    destruct (os_remove path) as [e |] eqn:Erm.
    + destruct (App.is_PermissionError e); simpl;
        (split; [intros H; split; [exact H |] | intros [H _]; exact H]);
        destruct (decide (p = path)) as [-> | Hne]; auto;
        right; congruence.
    + simpl. rewrite elem_of_difference, elem_of_singleton.
      split.
      * intros [H Hne]. auto.
      * intros [H [Hne | Hrm]]; [auto |].
        split; [exact H |]. intros ->. contradiction.
  - apply bool_decide_eq_false in Ein. simpl.
    split; [| intros [H _]; exact H].
    intros H. split; [exact H |]. left. intros ->. contradiction.
Qed.

Lemma cleanup_step_lines (os_remove : string -> option exn)
    (out : list App.cleanup_line) (files : gset string) (path : string) :
  length (App.cleanup_step os_remove (out, files) path).1 <= S (length out).
Proof.
  unfold App.cleanup_step.
  destruct (bool_decide (path ∈ files)); [| simpl; lia].
  destruct (os_remove path) as [e |];
    [destruct (App.is_PermissionError e) |]; simpl; rewrite length_app; simpl; lia.
Qed.

Lemma cleanup_paths_files (os_remove : string -> option exn) (paths : list string)
    (state : list App.cleanup_line * gset string) (p : string) :
  p ∈ (App.cleanup_paths os_remove paths state).2 <->
  p ∈ state.2 /\ (p ∉ paths \/ os_remove p <> None).
Proof.
  unfold App.cleanup_paths.
  revert state. induction paths as [| path rest IH]; intros [out files].
  - simpl. split; [intros H; split; [exact H | left; apply not_elem_of_nil]
                  | intros [H _]; exact H].
  - cbn [foldl]. rewrite IH, cleanup_step_files. cbn [snd].
    rewrite not_elem_of_cons. tauto.
Qed.

Lemma cleanup_paths_lines (os_remove : string -> option exn) (paths : list string)
    (state : list App.cleanup_line * gset string) :
  length (App.cleanup_paths os_remove paths state).1 <= length state.1 + length paths.
Proof.
  unfold App.cleanup_paths.
  revert state. induction paths as [| path rest IH]; intros [out files].
  - simpl. lia.
  - cbn [foldl]. etransitivity; [apply IH |].
    pose proof (cleanup_step_lines os_remove out files path). simpl in *. lia.
Qed.

(** X13. [cleanup_old_database] removes the four database files and
    nothing else: afterwards a file exists exactly if it existed before and
    either is none of the four paths or could not be removed; the function
    prints at most four lines and, whatever [os.remove] raises, goes on to
    the next path. *)
Theorem cleanup_removes_only_databases (os_remove : string -> option exn)
    (files : gset string) (p : string) :
  (p ∈ (App.cleanup_old_database os_remove files).2 <->
   p ∈ files /\ (p ∉ App.db_paths \/ os_remove p <> None)) /\
  length (App.cleanup_old_database os_remove files).1 <= 4 /\
  (App.cleanup_old_database os_remove files).2 ⊆ files.
Proof.
  unfold App.cleanup_old_database.
  split; [apply cleanup_paths_files |].
  split; [apply (cleanup_paths_lines os_remove App.db_paths ([], files)) |].
  intros p' Hp'. apply (cleanup_paths_files os_remove App.db_paths ([], files)) in Hp'.
  exact (proj1 Hp').
Qed.

Example cleanup_sample :
  App.cleanup_old_database
    (fun path => if String.eqb path "app.db"
                 then Some (OtherError "PermissionError") else None)
    {["retention.db"; "app.db"; "model.pkl"]} =
  ([App.Deleted "retention.db"; App.CouldNotDelete "app.db"],
   {["app.db"; "model.pkl"]}).
Proof. vm_compute. reflexivity. Qed.

End Cleanup.

(** ** [assess]: the record built from the form *)

Section Assess.

Local Open Scope Q_scope.

Lemma form_item_ret (form : gmap string string) (key text : string) :
  App.form_item form key = Ret text -> form !! key = Some text.
Proof.
  unfold App.form_item. destruct (form !! key); [| discriminate].
  intros [= <-]. reflexivity.
Qed.

(** What a record that [assess] managed to build looks like. *)
Lemma student_data_of_form_ret (float : string -> outcome Q)
    (int : string -> outcome Z) (form : gmap string string)
    (student_data : gmap string pyval) :
  App.student_data_of_form float int form = Ret student_data ->
  exists (name student_id course residence : string) (gpa attendance income : Q)
         (failures age : Z),
    form !! "name" = Some name /\
    form !! "student_id" = Some student_id /\
    form !! "course" = Some course /\
    student_data =
      <["age" := VInt age]>
      (<["parental_income" := VFloat income]>
      (<["residence" := VStr residence]>
      (<["failures" := VInt failures]>
      (<["attendance" := VFloat attendance]>
      (<["gpa" := VFloat gpa]>
      (<["course" := VStr course]>
      (<["student_id" := VStr student_id]>
      (<["name" := VStr name]> ∅)))))))).
Proof.
  unfold App.student_data_of_form. intros H.
  apply bind_ret_inv in H as (name & Hname & H).
  apply bind_ret_inv in H as (student_id & Hid & H).
  apply bind_ret_inv in H as (course & Hcourse & H).
  apply bind_ret_inv in H as (gpa_text & _ & H).
  apply bind_ret_inv in H as (gpa & _ & H).
  apply bind_ret_inv in H as (attendance_text & _ & H).
  apply bind_ret_inv in H as (attendance & _ & H).
  apply bind_ret_inv in H as (failures_text & _ & H).
  apply bind_ret_inv in H as (failures & _ & H).
  apply bind_ret_inv in H as (income & _ & H).
  apply bind_ret_inv in H as (age & _ & H).
  injection H as <-.
  exists name, student_id, course, (default "Urban" (form !! "residence")),
    gpa, attendance, income, failures, age.
  apply form_item_ret in Hname, Hid, Hcourse.
  repeat split; assumption.
Qed.

(** X14. A record that [assess] builds from a form always encodes: the
    six form fields it demands are there, every numeric field is a number,
    so the features never raise a [KeyError] or [TypeError] and the row of
    12 numbers reaches the scoring capability; an exception reported for
    such a record comes from scoring alone. *)
Theorem assess_record_encodes (float : string -> outcome Q)
    (int : string -> outcome Z) (form : gmap string string)
    (student_data : gmap string pyval) :
  App.student_data_of_form float int form = Ret student_data ->
  exists x : list pyval,
    X student_data = Ret x /\
    length x = 12%nat /\
    Forall (fun v => is_Some (num_of v)) x /\
    (forall key, key ∈ read_keys -> is_Some (student_data !! key)) /\
    (forall (u : Q) (m : ScoringCapability),
       predict_dropout_risk u student_data (Some m) =
         outer_try (score ← risk_score m x; py_round2 score)).
Proof.
  intros H.
  destruct (student_data_of_form_ret _ _ _ _ H)
    as (name & student_id & course & residence & gpa & attendance & income
        & failures & age & _ & _ & _ & ->).
  set (student_data :=
         <["age" := VInt age]>
         (<["parental_income" := VFloat income]>
         (<["residence" := VStr residence]>
         (<["failures" := VInt failures]>
         (<["attendance" := VFloat attendance]>
         (<["gpa" := VFloat gpa]>
         (<["course" := VStr course]>
         (<["student_id" := VStr student_id]>
         (<["name" := VStr name]> (∅ : gmap string pyval)))))))))).
  assert (student_data !! "gpa" = Some (VFloat gpa)) as Hg by reflexivity.
  assert (student_data !! "attendance" = Some (VFloat attendance)) as Ha
    by reflexivity.
  assert (student_data !! "failures" = Some (VInt failures)) as Hf by reflexivity.
  assert (dict_get student_data "parental_income" (VInt 300000) = VFloat income)
    as Hincome by reflexivity.
  assert (dict_get student_data "age" (VInt 20) = VInt age) as Hage by reflexivity.
  pose proof (X_of_features student_data (VFloat gpa) (VFloat attendance)
                (VInt failures) _ _ _ _ Hg Ha Hf eq_refl
                ltac:(rewrite Hincome; reflexivity)
                ltac:(rewrite Hincome; reflexivity) eq_refl) as HX.
  destruct (_map_course_to_number_range
              (dict_get student_data "course" (VStr "Computer Science")))
    as (code & Hcode & _).
  rewrite Hcode, Hage in HX.
  eexists. split; [exact HX |].
  split; [reflexivity |].
  split; [repeat constructor; simpl; eauto |].
  split.
  { intros key Hkey. unfold read_keys in Hkey.
    repeat (apply elem_of_cons in Hkey as [-> | Hkey]; [eexists; reflexivity |]).
    inversion Hkey. }
  intros u m. apply predict_with_row. exact HX.
Qed.

Lemma assess_record_encodes_witness :
  exists x : list pyval,
    X (<["age" := VInt 20]>
       (<["parental_income" := VFloat (inject_Z 300000)]>
       (<["residence" := VStr "Urban"]>
       (<["failures" := VInt 2]>
       (<["attendance" := VFloat 1]>
       (<["gpa" := VFloat 1]>
       (<["course" := VStr "Computer Science"]>
       (<["student_id" := VStr "KASU001"]>
       (<["name" := VStr "John Doe"]> ∅))))))))) = Ret x /\
    length x = 12%nat.
Proof.
  destruct (assess_record_encodes (fun _ => Ret 1) (fun _ => Ret 2%Z) sample_form _
              eq_refl) as (x & HX & Hlen & _).
  exists x. split; [exact HX | exact Hlen].
Defined.

End Assess.

(** ** [lecturer_dashboard]: the high-risk list *)

Section Lecturer.

Local Open Scope Q_scope.

Variable first_desc : list App.Prediction.t -> option App.Prediction.t.
Variable predictions : list App.Prediction.t.

Lemma high_risk_fold_in (students : list App.Student.t)
    (acc : list (App.Student.t * Q)) (s : App.Student.t) (r : Q) :
  In (s, r) (foldl (App.high_risk_turn first_desc predictions) acc students) <->
  In (s, r) acc \/
  (In s students /\
   exists p, first_desc (List.filter (App.of_student s) predictions) = Some p /\
             Qlt_bool 0.5 (App.Prediction.risk_score p) = true /\
             r = App.Prediction.risk_score p).
Proof.
  revert acc. induction students as [| s0 rest IH]; intros acc.
  - simpl. split; [auto | intros [H | [[] _]]; exact H].
  - cbn [foldl]. rewrite IH. unfold App.high_risk_turn.
    destruct (first_desc (List.filter (App.of_student s0) predictions))
      as [p0 |] eqn:Efirst.
    + destruct (Qlt_bool 0.5 (App.Prediction.risk_score p0)) eqn:Ehigh.
      * rewrite in_app_iff. simpl. split.
        -- intros [[H | [[= <- <-] | []]] | (Hin & p & Hp)]; eauto 10.
        -- intros [H | ([<- | Hin] & p & Hp & Hq & ->)]; eauto 10.
           left. right. left. congruence.
      * simpl. split.
        -- intros [H | (Hin & p & Hp)]; eauto 10.
        -- intros [H | ([<- | Hin] & p & Hp & Hq & ->)]; eauto 10.
           congruence.
    + simpl. split.
      * intros [H | (Hin & p & Hp)]; eauto 10.
      * intros [H | ([<- | Hin] & p & Hp & Hq & ->)]; eauto 10.
        congruence.
Qed.

Lemma high_risk_fold_length (students : list App.Student.t)
    (acc : list (App.Student.t * Q)) :
  (length (foldl (App.high_risk_turn first_desc predictions) acc students)
   <= length acc + length students)%nat.
Proof.
  revert acc. induction students as [| s0 rest IH]; intros acc.
  - simpl. lia.
  - cbn [foldl]. etransitivity; [apply IH |]. unfold App.high_risk_turn.
    destruct (first_desc _) as [p0 |]; [| simpl; lia].
    destruct (Qlt_bool 0.5 _); [rewrite length_app |]; simpl; lia.
Qed.

Lemma high_risk_students_in (students : list App.Student.t)
    (s : App.Student.t) (r : Q) :
  In (s, r) (App.high_risk_students first_desc students predictions) <->
  In s students /\
  exists p, first_desc (List.filter (App.of_student s) predictions) = Some p /\
            Qlt_bool 0.5 (App.Prediction.risk_score p) = true /\
            r = App.Prediction.risk_score p.
Proof.
  unfold App.high_risk_students.
  rewrite (high_risk_fold_in students [] s r). simpl. tauto.
Qed.

Lemma high_risk_students_length (students : list App.Student.t) :
  (length (App.high_risk_students first_desc students predictions)
   <= length students)%nat.
Proof. apply (high_risk_fold_length students []). Qed.

End Lecturer.

Section LecturerClaims.

Local Open Scope Q_scope.

Lemma of_student_in (s : App.Student.t) (p : App.Prediction.t)
    (predictions : list App.Prediction.t) :
  In p (List.filter (App.of_student s) predictions) <->
  In p predictions /\ App.Prediction.student_id p = App.Student.id s.
Proof.
  rewrite filter_In. unfold App.of_student. rewrite Z.eqb_eq. reflexivity.
Qed.

Lemma first_by_date_desc_from (rows : list App.Prediction.t) (b : App.Prediction.t) :
  exists p,
    foldl App.later_of (Some b) rows = Some p /\
    (p = b \/ In p rows) /\
    (App.Prediction.prediction_date b <= App.Prediction.prediction_date p)%Z /\
    forall p', In p' rows ->
               (App.Prediction.prediction_date p' <= App.Prediction.prediction_date p)%Z.
Proof.
  revert b. induction rows as [| p0 rest IH]; intros b.
  - exists b. simpl. repeat split; [auto | lia | intros p' []].
  - cbn [foldl App.later_of].
    destruct (Z.ltb_spec (App.Prediction.prediction_date b)
                (App.Prediction.prediction_date p0)) as [Hlt | Hge].
    + destruct (IH p0) as (p & Hp & Hin & Hdate & Hmax).
      exists p. split; [exact Hp |].
      split; [right; destruct Hin as [-> | Hin]; simpl; auto |].
      split; [lia |].
      intros p' [<- | Hp']; [exact Hdate | exact (Hmax p' Hp')].
    + destruct (IH b) as (p & Hp & Hin & Hdate & Hmax).
      exists p. split; [exact Hp |].
      split; [destruct Hin as [-> | Hin]; simpl; auto |].
      split; [exact Hdate |].
      intros p' [<- | Hp']; [lia | exact (Hmax p' Hp')].
Qed.

Lemma first_by_date_desc_orders : App.orders_by_date_desc App.first_by_date_desc.
Proof.
  intros rows. unfold App.first_by_date_desc.
  destruct rows as [| p0 rest]; [reflexivity |].
  cbn [foldl App.later_of].
  destruct (first_by_date_desc_from rest p0) as (p & -> & Hin & Hdate & Hmax).
  split.
  - destruct Hin as [-> | Hin]; simpl; auto.
  - intros p' [<- | Hp']; [exact Hdate | exact (Hmax p' Hp')].
Qed.

(** X15. The high-risk list of the lecturer dashboard, for any database
    that answers the latest prediction first: every listed student is a
    student of the table, listed with the score of a latest prediction of
    theirs, and that score is above 0.5; so a student without predictions,
    or whose predictions all score 0.5 or less (the fallback 0.5 among
    them), is never listed; a student with predictions that all score above
    0.5 is listed; and the list is no longer than the table. *)
Theorem high_risk_students_sound
    (first_desc : list App.Prediction.t -> option App.Prediction.t)
    (students : list App.Student.t) (predictions : list App.Prediction.t) :
  App.orders_by_date_desc first_desc ->
  (forall s r,
     In (s, r) (App.high_risk_students first_desc students predictions) ->
     In s students /\ 0.5 < r /\
     exists p, In p predictions /\
               App.Prediction.student_id p = App.Student.id s /\
               App.Prediction.risk_score p = r /\
               forall p', In p' predictions ->
                          App.Prediction.student_id p' = App.Student.id s ->
                          (App.Prediction.prediction_date p'
                           <= App.Prediction.prediction_date p)%Z) /\
  (forall s,
     In s students ->
     (exists p, In p predictions /\
                App.Prediction.student_id p = App.Student.id s) ->
     (forall p, In p predictions ->
                App.Prediction.student_id p = App.Student.id s ->
                0.5 < App.Prediction.risk_score p) ->
     exists r, In (s, r) (App.high_risk_students first_desc students predictions)) /\
  (length (App.high_risk_students first_desc students predictions)
   <= length students)%nat.
Proof.
  intros Horder. split; [| split].
  - intros s r Hin.
    apply high_risk_students_in in Hin as (Hs & p & Hfirst & Hhigh & ->).
    pose proof (Horder (List.filter (App.of_student s) predictions)) as Hp.
    rewrite Hfirst in Hp. destruct Hp as [Hp Hmax].
    apply of_student_in in Hp as [Hp Hid].
    split; [exact Hs |]. split; [apply Qlt_bool_true, Hhigh |].
    exists p. repeat split; try assumption.
    intros p' Hp' Hid'. apply Hmax, of_student_in. auto.
  - intros s Hs (p0 & Hp0 & Hid0) Hall.
    pose proof (Horder (List.filter (App.of_student s) predictions)) as Hp.
    destruct (first_desc (List.filter (App.of_student s) predictions))
      as [p |] eqn:Hfirst.
    + destruct Hp as [Hp _]. apply of_student_in in Hp as [Hp Hid].
      exists (App.Prediction.risk_score p).
      apply high_risk_students_in. split; [exact Hs |].
      exists p. split; [exact Hfirst |].
      split; [apply Qlt_bool_true, (Hall p Hp Hid) | reflexivity].
    + assert (In p0 (List.filter (App.of_student s) predictions)) as Hin
        by (apply of_student_in; auto).
      rewrite Hp in Hin. destruct Hin.
  - apply high_risk_students_length.
Qed.

Lemma high_risk_students_sound_witness :
  (length (App.high_risk_students App.first_by_date_desc sample_students
             sample_predictions) <= length sample_students)%nat.
Proof.
  exact (proj2 (proj2 (high_risk_students_sound App.first_by_date_desc
                         sample_students sample_predictions
                         first_by_date_desc_orders))).
Defined.

Example sample_high_risk :
  map (fun entry => (App.Student.student_id (fst entry), snd entry))
    (App.high_risk_students App.first_by_date_desc sample_students
       sample_predictions) =
  [("KASU001", 0.82)].
Proof. vm_compute. reflexivity. Qed.

End LecturerClaims.

(** ** [generate_test_data] *)

Section Regenerate.

Local Open Scope Q_scope.

Variable sample : nat -> Q.
Variable clock : nat -> Z.

Lemma filter_filter_implied {A : Type} (f g : A -> bool) (l : list A) :
  (forall a, f a = true -> g a = true) ->
  List.filter f (List.filter g l) = List.filter f l.
Proof.
  intros H. induction l as [| a l IH]; [reflexivity |].
  simpl. destruct (g a) eqn:Eg; simpl.
  - rewrite IH. reflexivity.
  - destruct (f a) eqn:Ef; [| exact IH].
    rewrite (H a Ef) in Eg. discriminate.
Qed.

Lemma filter_none {A : Type} (f : A -> bool) (l : list A) :
  List.filter f (List.filter (fun a => negb (f a)) l) = [].
Proof.
  induction l as [| a l IH]; [reflexivity |].
  simpl. destruct (f a) eqn:Ef; simpl; [exact IH |].
  rewrite Ef. exact IH.
Qed.

(** Rows of a student the loop does not visit are left alone. *)
Lemma regenerate_unvisited (students : list App.Student.t)
    (predictions : list App.Prediction.t) (turn : nat) (z : Z) :
  (forall s, In s students -> App.Student.id s <> z) ->
  List.filter (fun p => Z.eqb (App.Prediction.student_id p) z)
    (App.regenerate sample clock turn students predictions) =
  List.filter (fun p => Z.eqb (App.Prediction.student_id p) z) predictions.
Proof.
  revert predictions turn.
  induction students as [| s rest IH]; intros predictions turn Hne;
    [reflexivity |].
  cbn [App.regenerate].
  rewrite IH by (intros s' Hs'; apply Hne; right; exact Hs').
  assert (App.Student.id s <> z) as Hs by (apply Hne; left; reflexivity).
  rewrite List.filter_app. cbn [List.filter App.Prediction.student_id].
  destruct (Z.eqb_spec (App.Student.id s) z) as [Heq | _]; [contradiction |].
  rewrite app_nil_r.
  apply filter_filter_implied.
  intros p Hp. apply Z.eqb_eq in Hp. unfold App.of_student.
  apply negb_true_iff, Z.eqb_neq. congruence.
Qed.

Lemma regenerate_unvisited_student (students : list App.Student.t)
    (predictions : list App.Prediction.t) (turn : nat) (s : App.Student.t) :
  (forall s', In s' students -> App.Student.id s' <> App.Student.id s) ->
  List.filter (App.of_student s)
    (App.regenerate sample clock turn students predictions) =
  List.filter (App.of_student s) predictions.
Proof.
  intros H.
  exact (regenerate_unvisited students predictions turn (App.Student.id s) H).
Qed.

(** After the loop the [i]-th student has exactly the row made in the
    [i]-th turn. *)
Lemma regenerate_visited (students : list App.Student.t)
    (predictions : list App.Prediction.t) (turn i : nat) (s : App.Student.t) :
  NoDup (map App.Student.id students) ->
  nth_error students i = Some s ->
  List.filter (App.of_student s)
    (App.regenerate sample clock turn students predictions) =
  [ {| App.Prediction.student_id := App.Student.id s;
       App.Prediction.risk_score := round2 (uniform 0.1 0.9 (sample (turn + i)));
       App.Prediction.prediction_date := clock (turn + i)%nat |} ].
Proof.
  revert predictions turn i.
  induction students as [| s0 rest IH]; intros predictions turn i Hnodup Hi.
  - destruct i; discriminate Hi.
  - cbn [map] in Hnodup. apply NoDup_cons in Hnodup as [Hfresh Hnodup].
    cbn [App.regenerate].
    destruct i as [| j].
    + injection Hi as <-.
      rewrite regenerate_unvisited_student.
      * rewrite List.filter_app.
        rewrite (filter_none (App.of_student s0) predictions).
        unfold App.of_student.
        cbn [List.filter App.Prediction.student_id app].
        rewrite Z.eqb_refl, Nat.add_0_r. reflexivity.
      * intros s' Hs' Heq. apply Hfresh.
        rewrite <- Heq. apply list_elem_of_In, in_map, Hs'.
    + cbn [nth_error] in Hi.
      rewrite (IH _ (S turn) j Hnodup Hi).
      replace (S turn + j)%nat with (turn + S j)%nat by lia. reflexivity.
Qed.

End Regenerate.

Section RegenerateClaims.

Local Open Scope Q_scope.

(** X16. What [generate_test_data] leaves in the table when a visitor who
    is no student asks for it and the student ids are distinct: every
    student of the table has exactly one prediction, made in that student's
    turn, whose score has two decimals and lies in [0.1, 0.9]; predictions
    that belong to no student of the table are kept as they were; and the
    visitor is sent to the analytics page. *)
Theorem generate_test_data_regenerates (sample : nat -> Q) (clock : nat -> Z)
    (s : App.site) (user : App.User.t) (i : nat) (student : App.Student.t) :
  App.has_role user "student" = false ->
  NoDup (map App.Student.id (App.students_table s)) ->
  nth_error (App.students_table s) i = Some student ->
  0 <= sample i < 1 ->
  exists (after : App.site) (p : App.Prediction.t),
    App.generate_test_data sample clock s user = (App.Redirect "analytics", after) /\
    App.students_table after = App.students_table s /\
    List.filter (App.of_student student) (App.predictions_table after) = [p] /\
    App.Prediction.prediction_date p = clock i /\
    0.1 <= App.Prediction.risk_score p <= 0.9 /\
    two_decimals (App.Prediction.risk_score p) /\
    (forall z,
       (forall s', In s' (App.students_table s) -> App.Student.id s' <> z) ->
       List.filter (fun p => Z.eqb (App.Prediction.student_id p) z)
         (App.predictions_table after) =
       List.filter (fun p => Z.eqb (App.Prediction.student_id p) z)
         (App.predictions_table s)).
Proof.
  intros Hrole Hnodup Hi Hsample.
  unfold App.generate_test_data. rewrite Hrole.
  destruct (App.students_table s) as [| s0 rest] eqn:Etable;
    [destruct i; discriminate Hi |].
  eexists. eexists.
  split; [reflexivity |]. cbn [App.students_table App.predictions_table].
  split; [reflexivity |].
  split; [exact (regenerate_visited sample clock _ _ 0 i student Hnodup Hi) |].
  cbn [App.Prediction.prediction_date App.Prediction.risk_score Nat.add].
  split; [reflexivity |].
  split; [apply demo_score_range, Hsample |].
  split; [apply round2_two_decimals |].
  intros z Hz. apply regenerate_unvisited. exact Hz.
Qed.

End RegenerateClaims.

Section RegenerateWitness.

Local Open Scope Q_scope.

Lemma generate_test_data_regenerates_witness :
  exists (after : App.site) (p : App.Prediction.t),
    App.generate_test_data (fun _ => 1 # 4) (fun turn => 100 + Z.of_nat turn)%Z
      {| App.students_table := sample_students;
         App.predictions_table := sample_predictions;
         App.current_user := None |}
      {| App.User.id := 1; App.User.role := Some "advisor" |} =
      (App.Redirect "analytics", after) /\
    List.filter
      (App.of_student
         {| App.Student.id := 2; App.Student.name := "Jane Smith";
            App.Student.student_id := "KASU002"; App.Student.user_id := Some 7%Z |})
      (App.predictions_table after) = [p] /\
    0.1 <= App.Prediction.risk_score p <= 0.9.
Proof.
  assert (NoDup (map App.Student.id sample_students)) as Hnodup.
  { apply (bool_decide_unpack _). vm_compute. exact I. }
  assert (0 <= 1 # 4 < 1) as Hsample by (split; [discriminate | reflexivity]).
  destruct (generate_test_data_regenerates
              (fun _ => 1 # 4) (fun turn => 100 + Z.of_nat turn)%Z
              {| App.students_table := sample_students;
                 App.predictions_table := sample_predictions;
                 App.current_user := None |}
              {| App.User.id := 1; App.User.role := Some "advisor" |}
              1 _ eq_refl Hnodup eq_refl Hsample)
    as (after & p & Hrun & _ & Hrows & _ & Hrange & _).
  exists after, p. split; [exact Hrun |]. split; [exact Hrows | exact Hrange].
Defined.

End RegenerateWitness.

(** ** Routes *)

Section Routes.

Variable sample : nat -> Q.
Variable clock : nat -> Z.

Lemma view_equations (s : App.site) :
  App.view sample clock s "home" = Some (App.Render "index.html", s) /\
  App.view sample clock s "login" = Some (App.Render "login.html", s) /\
  App.view sample clock s "logout" =
    Some (App.login_required s (fun _ => (App.Redirect "home", App.logged_out s))) /\
  App.view sample clock s "dashboard" =
    Some (App.login_required s (fun user => (App.dashboard user, s))) /\
  App.view sample clock s "assess" =
    Some (App.login_required s (fun user => (App.assess user, s))) /\
  App.view sample clock s "students" =
    Some (App.login_required s (fun user => (App.students user, s))) /\
  App.view sample clock s "analytics" =
    Some (App.login_required s (fun user => (App.analytics user, s))) /\
  App.view sample clock s "generate_test_data" =
    Some (App.login_required s (App.generate_test_data sample clock s)) /\
  App.view sample clock s "lecturer_dashboard" =
    Some (App.login_required s (fun user => (App.lecturer_dashboard user, s))) /\
  App.view sample clock s "lecturer_students" =
    Some (App.login_required s (fun user => (App.lecturer_students user, s))) /\
  App.view sample clock s "student_dashboard" =
    Some (App.login_required s (fun user => (App.student_dashboard s user, s))).
Proof. repeat split. Qed.

End Routes.

Section RouteClaims.

Variable sample : nat -> Q.
Variable clock : nat -> Z.

(** A view either renders or redirects to one of the endpoints. *)
Lemma view_stays_on_site (s : App.site) (endpoint : string) :
  endpoint ∈ App.endpoints ->
  exists (r : App.response) (s' : App.site),
    App.view sample clock s endpoint = Some (r, s') /\
    match r with
    | App.Render _ => True
    | App.Redirect target => target ∈ App.endpoints
    end.
Proof.
  intros Hin. unfold App.endpoints in Hin.
  destruct (view_equations sample clock s)
    as (E1 & E2 & E3 & E4 & E5 & E6 & E7 & E8 & E9 & E10 & E11).
  repeat (apply elem_of_cons in Hin as [-> | Hin]);
    [.. | inversion Hin];
    first [rewrite E1 | rewrite E2 | rewrite E3 | rewrite E4 | rewrite E5
          | rewrite E6 | rewrite E7 | rewrite E8 | rewrite E9 | rewrite E10
          | rewrite E11];
    unfold App.login_required;
    destruct (App.current_user s) as [user |];
    try (eexists; eexists; split; [reflexivity |];
         unfold App.endpoints; set_solver);
    unfold App.dashboard, App.assess, App.students, App.analytics,
      App.generate_test_data, App.lecturer_dashboard, App.lecturer_students,
      App.student_dashboard;
    repeat match goal with
           | |- context [App.has_role ?u ?n] => destruct (App.has_role u n)
           | |- context [App.students_table ?t] =>
               destruct (App.students_table t)
           | |- context [find ?f ?l] => destruct (find f l)
           end;
    cbn; eexists; eexists; (split; [reflexivity |]);
    unfold App.endpoints; set_solver.
Qed.

(** One request: the view is looked up, the login check and the role
    tests are decided. *)
Ltac route_step :=
  cbn [App.follow];
  match goal with
  | |- context [App.view ?sm ?cl ?s ?e] =>
      destruct (view_equations sm cl s)
        as (?E & ?E & ?E & ?E & ?E & ?E & ?E & ?E & ?E & ?E & ?E);
      repeat match goal with
             | H : App.view sm cl s _ = _ |- _ => try rewrite H; clear H
             end
  end;
  unfold App.login_required;
  cbn [App.current_user App.logged_out App.students_table App.predictions_table];
  repeat match goal with
         | H : App.current_user ?s = _ |- context [App.current_user ?s] =>
             rewrite H
         end;
  cbn match beta;
  unfold App.dashboard, App.assess, App.students, App.analytics,
    App.generate_test_data, App.lecturer_dashboard, App.lecturer_students,
    App.student_dashboard;
  cbn [App.current_user App.logged_out App.students_table App.predictions_table];
  repeat match goal with
         | H : App.has_role ?u ?n = _ |- context [App.has_role ?u ?n] =>
             rewrite H
         | H : App.students_table ?s = _ |- context [App.students_table ?s] =>
             rewrite H
         | H : find ?f ?l = _ |- context [find ?f ?l] => rewrite H
         end;
  cbn [negb fst snd];
  cbn match beta.

(** X17. Redirects settle: from each of the eleven endpoints, for every
    visitor and every state of the tables, a browser that follows the
    redirects of GET requests is shown a page after at most four of them;
    there is no redirect loop between the dashboards and their role
    checks. *)
Theorem redirects_settle (s : App.site) (endpoint : string) :
  endpoint ∈ App.endpoints ->
  exists (template : string) (s' : App.site),
    App.follow sample clock 4 s endpoint = Some (App.Render template, s').
Proof.
  intros Hin. unfold App.endpoints in Hin.
  destruct (App.current_user s) as [user |] eqn:Euser.
  - destruct (App.has_role user "student") eqn:Estudent;
      destruct (App.has_role user "lecturer") eqn:Electurer;
      destruct (App.students_table s) as [| s0 rest] eqn:Etable;
      destruct (find (fun student =>
                        bool_decide (App.Student.user_id student
                                     = Some (App.User.id user)))
                  (App.students_table s)) as [profile |] eqn:Eprofile;
      rewrite Etable in Eprofile;
      repeat (apply elem_of_cons in Hin as [-> | Hin]);
      try (inversion Hin; fail);
      repeat route_step; eexists; eexists; reflexivity.
  - repeat (apply elem_of_cons in Hin as [-> | Hin]);
      try (inversion Hin; fail);
      repeat route_step; eexists; eexists; reflexivity.
Qed.

Lemma has_role_student_not_lecturer (user : App.User.t) :
  App.has_role user "student" = true -> App.has_role user "lecturer" = false.
Proof.
  unfold App.has_role. intros H. apply bool_decide_eq_true in H.
  apply bool_decide_eq_false. rewrite H. discriminate.
Qed.

(** A visitor who is anonymous or a student stays so, and is rendered no
    staff template. *)
Lemma view_keeps_students_out (s s' : App.site) (endpoint : string)
    (r : App.response) :
  (forall user, App.current_user s = Some user ->
                App.has_role user "student" = true) ->
  App.view sample clock s endpoint = Some (r, s') ->
  (forall user, App.current_user s' = Some user ->
                App.has_role user "student" = true) /\
  match r with
  | App.Render template => template ∉ App.staff_templates
  | App.Redirect _ => True
  end.
Proof.
  intros Hstudent. unfold App.view, App.login_required.
  repeat case_bool_decide; try discriminate;
    destruct (App.current_user s) as [user |] eqn:Euser;
    try pose proof (Hstudent user eq_refl) as Hrole;
    try pose proof (has_role_student_not_lecturer user Hrole) as Hother;
    unfold App.dashboard, App.assess, App.students, App.analytics,
      App.generate_test_data, App.lecturer_dashboard, App.lecturer_students,
      App.student_dashboard;
    rewrite ?Hrole, ?Hother; cbn [negb];
    repeat match goal with
           | |- context [App.has_role ?u ?n] => destruct (App.has_role u n)
           | |- context [find ?f ?l] => destruct (find f l)
           end;
    intros [= <- <-];
    (split; [cbn [App.logged_out App.current_user]; congruence |]);
    try exact I;
    unfold App.staff_templates; intros Hin;
    repeat (apply elem_of_cons in Hin as [Hin | Hin]; [discriminate Hin |]);
    inversion Hin.
Qed.

(** X18. A student is never shown a staff page: whatever endpoint a
    visitor who is anonymous or has the role 'student' asks for, and
    however many redirects the browser follows, the page that is rendered
    is none of the dashboard, assess, students, analytics,
    lecturer_dashboard and lecturer_students templates. *)
Theorem students_are_kept_out (hops : nat) (s s' : App.site)
    (endpoint template : string) :
  (forall user, App.current_user s = Some user ->
                App.has_role user "student" = true) ->
  App.follow sample clock hops s endpoint = Some (App.Render template, s') ->
  template ∉ App.staff_templates.
Proof.
  revert s endpoint.
  induction hops as [| fewer IH]; intros s endpoint Hstudent;
    cbn [App.follow];
    destruct (App.view sample clock s endpoint) as [[r s1] |] eqn:Eview;
    try discriminate;
    destruct (view_keeps_students_out s s1 endpoint r Hstudent Eview)
      as [Hnext Hr];
    destruct r as [shown | target]; try discriminate.
  - intros [= <- <-]. exact Hr.
  - intros [= <- <-]. exact Hr.
  - apply IH. exact Hnext.
Qed.

(** X19. After a login nobody is bounced: the dashboard that [login]
    picks by role accepts that role, so the page is rendered at once; only
    a student to whom no student row is linked is sent on, to logout. *)
Theorem login_lands (s : App.site) (user : App.User.t) :
  App.current_user s = Some user ->
  exists target : string,
    App.login_redirect user = App.Redirect target /\
    target ∈ App.endpoints /\
    ((exists template, App.view sample clock s target
                       = Some (App.Render template, s)) \/
     (App.has_role user "student" = true /\
      find (fun student =>
              bool_decide (App.Student.user_id student = Some (App.User.id user)))
        (App.students_table s) = None /\
      App.view sample clock s target = Some (App.Redirect "logout", s))).
Proof.
  intros Euser. unfold App.login_redirect.
  destruct (App.has_role user "student") eqn:Estudent;
    [| destruct (App.has_role user "lecturer") eqn:Electurer];
    eexists; (split; [reflexivity |]);
    (split; [unfold App.endpoints; set_solver |]).
  - destruct (find (fun student =>
                      bool_decide (App.Student.user_id student
                                   = Some (App.User.id user)))
                (App.students_table s)) as [profile |] eqn:Eprofile.
    + left. route_step. eauto.
    + right. split; [reflexivity |]. split; [reflexivity |].
      route_step. reflexivity.
  - left. route_step. eauto.
  - left. route_step. eauto.
Qed.

End RouteClaims.

Section RouteWitnesses.

Lemma redirects_settle_witness :
  exists (template : string) (s' : App.site),
    App.follow (fun _ => 0%Q) (fun _ => 0%Z) 4
      {| App.students_table := sample_students;
         App.predictions_table := sample_predictions;
         App.current_user :=
           Some {| App.User.id := 9; App.User.role := Some "student" |} |}
      "lecturer_dashboard" = Some (App.Render template, s').
Proof.
  apply redirects_settle.
  apply (bool_decide_unpack _). vm_compute. exact I.
Defined.

Lemma students_are_kept_out_witness :
  "index.html" ∉ App.staff_templates.
Proof.
  apply (students_are_kept_out (fun _ => 0%Q) (fun _ => 0%Z) 4
           {| App.students_table := sample_students;
              App.predictions_table := sample_predictions;
              App.current_user :=
                Some {| App.User.id := 9; App.User.role := Some "student" |} |}
           {| App.students_table := sample_students;
              App.predictions_table := sample_predictions;
              App.current_user := None |}
           "lecturer_dashboard" "index.html").
  - intros user [= <-]. reflexivity.
  - vm_compute. reflexivity.
Defined.

Lemma login_lands_witness :
  exists target : string,
    App.login_redirect {| App.User.id := 3; App.User.role := Some "lecturer" |}
      = App.Redirect target /\
    target ∈ App.endpoints.
Proof.
  destruct (login_lands (fun _ => 0%Q) (fun _ => 0%Z)
              {| App.students_table := sample_students;
                 App.predictions_table := sample_predictions;
                 App.current_user :=
                   Some {| App.User.id := 3; App.User.role := Some "lecturer" |} |}
              {| App.User.id := 3; App.User.role := Some "lecturer" |} eq_refl)
    as (target & Hredirect & Hin & _).
  exists target. split; [exact Hredirect | exact Hin].
Defined.

End RouteWitnesses.
